(** * Chip list components: projection and insertion

    A shallow embedding of the chip-list components of the repository
    ([ChipList], [ChipListMemo], [ChipListCusto]) and of the insertion
    handler of [App], with the properties of the projection they compute:
    which labels are shown, how each label is shortened and how many chips
    are reported as hidden. *)

From Stdlib Require Import ZArith NArith List String Ascii Bool Lia.
From ExtLib Require Import Structures.Monad Structures.MonadState.
From ExtLib Require Import Data.Monads.StateMonad.
Import ListNotations.
Open Scope Z_scope.

Set Implicit Arguments.

(* ===================================================================== *)
(** ** The JavaScript values and built-ins the components use *)
(* ===================================================================== *)

Module JS.

(** A JavaScript string is a sequence of UTF-16 code units; [length],
    [slice] and [===] all work on code units. *)
Definition jsstring := list N.

(** String literals of the source that are plain ASCII. *)
Definition lit (s : string) : jsstring :=
  map N_of_ascii (list_ascii_of_string s).

(** [x.length], for arrays and strings alike. *)
Definition length {A : Type} (l : list A) : Z := Z.of_nat (List.length l).

(** An optional prop of type [number]: [None] is [undefined], [Some z] an
    integer value.  Fractions, NaN and the infinities are left out. *)
Definition number := option Z.

(** Truthiness of an optional number: [undefined] and [0] are falsy. *)
Definition truthy (n : number) : bool :=
  match n with
  | None => false
  | Some z => negb (z =? 0)
  end.

(** [n ?? d]: only [undefined] falls through to the default. *)
Definition nullish (n : number) (d : Z) : Z :=
  match n with
  | None => d
  | Some z => z
  end.

(** [a <= n] with [a] a number: [undefined] converts to NaN and every
    comparison with NaN is false. *)
Definition le (a : Z) (n : number) : bool :=
  match n with
  | None => false
  | Some z => a <=? z
  end.

(** Relative index of [slice]: a negative index counts from the end,
    and everything is clamped to [0 .. len]. *)
Definition relative (len i : Z) : Z :=
  if i <? 0 then Z.max (len + i) 0 else Z.min i len.

(** [l.slice(start, end)] of Array.prototype and String.prototype; an
    [undefined] end is the length. *)
Definition slice {A : Type} (l : list A) (start : Z) (end_ : number) : list A :=
  let len := length l in
  let k := relative len start in
  let final := match end_ with
               | None => len
               | Some e => relative len e
               end in
  firstn (Z.to_nat (final - k)) (skipn (Z.to_nat k) l).

(** White space and line terminators, the code units [trim] strips. *)
Definition isWhiteSpace (c : N) : bool :=
  ((9 <=? c) && (c <=? 13) || (c =? 32) || (c =? 160) || (c =? 5760)
   || (8192 <=? c) && (c <=? 8202) || (c =? 8232) || (c =? 8233)
   || (c =? 8239) || (c =? 8287) || (c =? 12288) || (c =? 65279))%N.

Fixpoint trimStart (s : jsstring) : jsstring :=
  match s with
  | [] => []
  | c :: rest => if isWhiteSpace c then trimStart rest else s
  end.

Definition trimEnd (s : jsstring) : jsstring := rev (trimStart (rev s)).

(** [s.trim()] *)
Definition trim (s : jsstring) : jsstring := trimEnd (trimStart s).

(** [a === b] on strings. *)
Fixpoint strict_eq (a b : jsstring) : bool :=
  match a, b with
  | [], [] => true
  | x :: a', y :: b' => (x =? y)%N && strict_eq a' b'
  | _, _ => false
  end.

(** Truthiness of a string: only the empty string is falsy. *)
Definition truthy_string (s : jsstring) : bool :=
  match s with
  | [] => false
  | _ :: _ => true
  end.

Definition Math_min (a b : Z) : Z := Z.min a b.
Definition Math_max (a b : Z) : Z := Z.max a b.

End JS.

Import JS.

(* ===================================================================== *)
(** ** Data model *)
(* ===================================================================== *)

(** [const ELLIPSIS = "…"] *)
Definition ELLIPSIS : jsstring := [0x2026%N].

(** [type Chip = { label: string }] *)
Record Chip : Type := mkChip { label : jsstring }.

(** [ChipListProps]; [theme] is read by [ChipListCusto] only. *)
Record ChipListProps : Type := mkProps {
  chips : list Chip;
  maxChips : number;
  maxTextLength : number;
  theme : option string
}.

(** What a component returns: the "No chips available" section, or the
    section with one [div] per label (keyed by position) and, when the
    count is positive, the "N more items" aside.  The string is the theme
    class of the section. *)
Inductive Element : Type :=
| EmptySection (themeClass : string)
| ChipSection (themeClass : string) (labels : list jsstring) (aside : option Z).

(* ===================================================================== *)
(** ** The projection, as every variant computes it *)
(* ===================================================================== *)

(** The callback of [sliced.map]: one chip to its display string. *)
Definition displayLabel (maxTextLength : number) (chip : Chip) : jsstring :=
  if negb (truthy maxTextLength) || le (length (label chip)) maxTextLength
  then label chip
  else slice (label chip) 0 maxTextLength ++ ELLIPSIS.

(** The callback of [useMemo]: the display strings. *)
Definition visibleChips (chips : list Chip) (maxChips maxTextLength : number)
  : list jsstring :=
  if length chips =? 0 then []
  else
    let sliced := if truthy maxChips then slice chips 0 maxChips else chips in
    map (displayLabel maxTextLength) sliced.

(** [Math.max(chips.length - (maxChips ?? chips.length), 0)].  The
    subtraction here is the exact one; see [exactDifference] for where the
    subtraction of the code, on doubles, is the same. *)
Definition exceeding (chips : list Chip) (maxChips : number) : Z :=
  Math_max (length chips - nullish maxChips (length chips)) 0.

(** The tail of the component body: the early return on an empty list,
    else the section built from the memoised labels and [exceeding]. *)
Definition returned (themeClass : string) (chips : list Chip)
    (maxChips : number) (memoised : list jsstring) : Element :=
  if length chips =? 0 then EmptySection themeClass
  else
    let exceeding := exceeding chips maxChips in
    ChipSection themeClass memoised
      (if exceeding >? 0 then Some exceeding else None).

(** The element a component shows for given props, with the labels freshly
    computed (as on the first render). *)
Definition view (themeClass : string) (chips : list Chip)
    (maxChips maxTextLength : number) : Element :=
  returned themeClass chips maxChips (visibleChips chips maxChips maxTextLength).

(** The result a caller reads off the element: the labels of the chip
    [div]s in order and the number of the aside (none shown: 0). *)
Record ProjectionResult : Type := mkResult {
  visibleLabels : list jsstring;
  hiddenCount : Z
}.

Definition observe (e : Element) : ProjectionResult :=
  match e with
  | EmptySection _ => mkResult [] 0
  | ChipSection _ labels aside =>
      mkResult labels (match aside with Some n => n | None => 0 end)
  end.

Definition isEmptySection (e : Element) : bool :=
  match e with
  | EmptySection _ => true
  | ChipSection _ _ _ => false
  end.

(** [project]: what [ChipListMemo] (and [ChipList]) show for the props. *)
Definition project (chips : list Chip) (maxChips maxTextLength : number)
  : ProjectionResult :=
  observe (view "light" chips maxChips maxTextLength).

(** A limit as the data model has it: absent, or not negative. *)
Definition limit_ok (n : number) : Prop :=
  match n with
  | None => True
  | Some z => 0 <= z
  end.

(** [initialSample] of App.tsx ([sample] in the one-component App). *)
Definition initialSample : list Chip :=
  [ mkChip (lit "ReactJS");
    mkChip (lit "TypeScript");
    mkChip (lit "PerformanceOptimization");
    mkChip (lit "Memoization");
    mkChip (lit "HooksMastery") ].


(* ===================================================================== *)
(** ** Chip insertion in [App] *)
(* ===================================================================== *)

Module App.

(** The three [useState] cells of [App]. *)
Record State : Type := mkState {
  counter : Z;
  chips : list Chip;
  inputValue : jsstring
}.

(** [handleAddChip]: the click handler of the "Add Chip" button. *)
Definition handleAddChip (s : State) : State :=
  let trimmed := trim (inputValue s) in
  if truthy_string trimmed
     && negb (existsb (fun chip => strict_eq (label chip) trimmed) (chips s))
  then mkState (counter s) (chips s ++ [mkChip trimmed]) []
  else s.

(** The callback of [setInterval]: [setCounter((c) => c + 1)]. *)
Definition tick (s : State) : State :=
  mkState (counter s + 1) (chips s) (inputValue s).

(** The props [App] hands to its three children. *)
Definition childProps (s : State) (theme : option string) : ChipListProps :=
  mkProps (chips s) (Some 3) (Some 10) theme.

End App.

(** [addChip]: the list [handleAddChip] leaves in the state when the input
    field holds the candidate text. *)
Definition addChip (existing : list Chip) (candidateText : jsstring) : list Chip :=
  App.chips (App.handleAddChip (App.mkState 0 existing candidateText)).

(* ===================================================================== *)
(** ** The components with their hooks *)
(* ===================================================================== *)

Module Hooks.

Import MonadNotation.
Local Open Scope monad_scope.

(** What the components write with [console.log]. *)
Inductive LogLine : Type :=
| LogTheme (themeClass : string)
| LogRendered (name : string) (renderCount : Z)
| LogMounted (name : string) (mountCount diff : Z).

(** The dependency array [[chips, maxChips, maxTextLength]]. *)
Definition Deps : Type := (list Chip * number * number)%type.

(** The cells React keeps for one mounted component: one per hook, [None]
    before the first render has filled it, and, for a component wrapped in
    [React.memo], the props and the element of its last run. *)
Record Fiber : Type := mkFiber {
  visibleCount : option Z;
  memo : option (Deps * list jsstring);
  mountCount : option Z;
  lastRenderTime : option Z;
  mountEffectRan : bool;
  committed : option (ChipListProps * Element)
}.

(** The module-level [let renderCount], the console, and the cells. *)
Record World : Type := mkWorld {
  renderCount : Z;
  console : list LogLine;
  fiber : Fiber
}.

(** What one render takes from outside: the two readings of [Date.now()]
    (in the body and in the mount effect) and whether the [chips] prop is
    the very array of the previous render, which is what [Object.is]
    compares. *)
Record Env : Type := mkEnv {
  nowRender : Z;
  nowEffect : Z;
  sameChips : bool
}.

Definition unmounted : Fiber := mkFiber None None None None false None.

Definition withFiber (f : Fiber -> Fiber) (w : World) : World :=
  mkWorld (renderCount w) (console w) (f (fiber w)).

Definition setVisibleCount (v : Z) (f : Fiber) : Fiber :=
  mkFiber (Some v) (memo f) (mountCount f) (lastRenderTime f)
    (mountEffectRan f) (committed f).

Definition setMemo (deps : Deps) (v : list jsstring) (f : Fiber) : Fiber :=
  mkFiber (visibleCount f) (Some (deps, v)) (mountCount f) (lastRenderTime f)
    (mountEffectRan f) (committed f).

Definition setMountCount (v : Z) (f : Fiber) : Fiber :=
  mkFiber (visibleCount f) (memo f) (Some v) (lastRenderTime f)
    (mountEffectRan f) (committed f).

Definition setLastRenderTime (v : Z) (f : Fiber) : Fiber :=
  mkFiber (visibleCount f) (memo f) (mountCount f) (Some v)
    (mountEffectRan f) (committed f).

Definition setMountEffectRan (f : Fiber) : Fiber :=
  mkFiber (visibleCount f) (memo f) (mountCount f) (lastRenderTime f)
    true (committed f).

Definition setCommitted (p : ChipListProps) (e : Element) (f : Fiber) : Fiber :=
  mkFiber (visibleCount f) (memo f) (mountCount f) (lastRenderTime f)
    (mountEffectRan f) (Some (p, e)).

Definition console_log (l : LogLine) : state World unit :=
  modify (fun w => mkWorld (renderCount w) (console w ++ [l]) (fiber w)) ;;
  ret tt.

Definition when (b : bool) (c : state World unit) : state World unit :=
  if b then c else ret tt.

(** [useState(init)] for [visibleCount]: the initialiser runs once. *)
Definition useState (init : unit -> Z) : state World Z :=
  w <- get ;;
  match visibleCount (fiber w) with
  | Some v => ret v
  | None =>
      let v := init tt in
      put (withFiber (setVisibleCount v) w) ;;
      ret v
  end.

(** [Object.is] on two optional numbers. *)
Definition number_is (a b : number) : bool :=
  match a, b with
  | None, None => true
  | Some x, Some y => x =? y
  | _, _ => false
  end.

(** [Object.is] on two optional strings. *)
Definition string_is (a b : option string) : bool :=
  match a, b with
  | None, None => true
  | Some x, Some y => String.eqb x y
  | _, _ => false
  end.

(** [Object.is] on each dependency; [same] is the identity of the array. *)
Definition depsUnchanged (same : bool) (old new : Deps) : bool :=
  match old, new with
  | (_, mc, mtl), (_, mc', mtl') => same && number_is mc mc' && number_is mtl mtl'
  end.

(** The shallow comparison of [React.memo]: [Object.is] on each prop. *)
Definition propsUnchanged (same : bool) (old new : ChipListProps) : bool :=
  same
  && number_is (maxChips old) (maxChips new)
  && number_is (maxTextLength old) (maxTextLength new)
  && string_is (theme old) (theme new).

(** [useMemo(compute, deps)] *)
Definition useMemo (env : Env) (compute : unit -> list jsstring) (deps : Deps)
  : state World (list jsstring) :=
  w <- get ;;
  let recompute :=
    let v := compute tt in
    put (withFiber (setMemo deps v) w) ;;
    ret v in
  match memo (fiber w) with
  | Some (old, v) =>
      if depsUnchanged (sameChips env) old deps then ret v else recompute
  | None => recompute
  end.

(** [useRef(0)] for [mountCount]. *)
Definition useRef_mountCount (initial : Z) : state World Z :=
  w <- get ;;
  match mountCount (fiber w) with
  | Some v => ret v
  | None => put (withFiber (setMountCount initial) w) ;; ret initial
  end.

(** [useRef(Date.now())] for [lastRenderTime]. *)
Definition useRef_lastRenderTime (initial : Z) : state World Z :=
  w <- get ;;
  match lastRenderTime (fiber w) with
  | Some v => ret v
  | None => put (withFiber (setLastRenderTime initial) w) ;; ret initial
  end.

Section Component.

(** The variants differ in the tag of their log lines and in the theme:
    [ChipListCusto] takes it from its props and logs it (three times), the
    others have the class "light" fixed. *)
Variable name : string.
Variable themed : bool.

Definition themeClass (p : ChipListProps) : string :=
  if themed
  then match theme p with Some t => t | None => "light"%string end
  else "light"%string.

(** The function body up to its [return].  [refreshVisible] is built by
    [useCallback] and never called, so [visibleCount] keeps its first
    value. *)
Definition body (env : Env) (p : ChipListProps) : state World Element :=
  when themed (console_log (LogTheme (themeClass p))) ;;
  _ <- useState (fun _ =>
         Math_min (length (chips p)) (nullish (maxChips p) (length (chips p)))) ;;
  memoised <- useMemo env
                (fun _ => visibleChips (chips p) (maxChips p) (maxTextLength p))
                (chips p, maxChips p, maxTextLength p) ;;
  _ <- useRef_mountCount 0 ;;
  _ <- useRef_lastRenderTime (nowRender env) ;;
  ret (returned (themeClass p) (chips p) (maxChips p) memoised).

(** [useEffect] without dependencies: after every render. *)
Definition renderEffect (p : ChipListProps) : state World unit :=
  when themed (console_log (LogTheme (themeClass p))) ;;
  modify (fun w => mkWorld (renderCount w + 1) (console w) (fiber w)) ;;
  w <- get ;;
  console_log (LogRendered name (renderCount w)).

(** [useEffect] with [[]]: after the first render only.  Both refs were
    filled by the body; the defaults are never taken. *)
Definition mountEffect (env : Env) (p : ChipListProps) : state World unit :=
  w <- get ;;
  if mountEffectRan (fiber w) then ret tt
  else
    when themed (console_log (LogTheme (themeClass p))) ;;
    let now := nowEffect env in
    let last := match lastRenderTime (fiber w) with Some t => t | None => now end in
    let diff := now - last in
    console_log (LogMounted name
                   (match mountCount (fiber w) with Some m => m | None => 0 end)
                   diff) ;;
    modify (withFiber (fun f => setMountEffectRan (setLastRenderTime now f))) ;;
    ret tt.

(** One run of the function component: the body, then its effects. *)
Definition render (env : Env) (p : ChipListProps) : state World Element :=
  e <- body env p ;;
  renderEffect p ;;
  mountEffect env p ;;
  ret e.

End Component.

(** [React.memo(component)]: when every prop is the one of the last run the
    function is not called and the element of that run is kept. *)
Definition React_memo (component : Env -> ChipListProps -> state World Element)
    (env : Env) (p : ChipListProps) : state World Element :=
  w <- get ;;
  let run :=
    e <- component env p ;;
    modify (withFiber (setCommitted p e)) ;;
    ret e in
  match committed (fiber w) with
  | Some (old, e) => if propsUnchanged (sameChips env) old p then ret e else run
  | None => run
  end.

(** [ChipList] of src/unnamed/part_001, a plain function component. *)
Definition ChipList : Env -> ChipListProps -> state World Element :=
  render "ChipList" false.

(** [ChipListMemo] *)
Definition ChipListMemo : Env -> ChipListProps -> state World Element :=
  React_memo (render "ChipListMemo" false).

(** [ChipListCusto], with [theme = "light"] as default. *)
Definition ChipListCusto : Env -> ChipListProps -> state World Element :=
  React_memo (render "ChipListCusto" true).

(** The memo cell holds what the callback gives on the dependencies kept
    with it. *)
Definition memo_ok (w : World) : Prop :=
  match memo (fiber w) with
  | None => True
  | Some ((chips, maxChips, maxTextLength), v) =>
      v = visibleChips chips maxChips maxTextLength
  end.

(** The element kept by [React.memo] is the one its props give. *)
Definition committed_ok (themed : bool) (w : World) : Prop :=
  match committed (fiber w) with
  | None => True
  | Some (p, e) =>
      e = view (themeClass themed p) (chips p) (maxChips p) (maxTextLength p)
  end.

(** Arrays are never changed in place ([App] builds a new one to append):
    when the [chips] prop is the array of the last run, it holds the chips
    it held then. *)
Definition env_ok (env : Env) (w : World) (chips' : list Chip) : Prop :=
  sameChips env = true ->
  match memo (fiber w) with
  | None => True
  | Some ((old, _, _), _) => old = chips'
  end
  /\ match committed (fiber w) with
     | None => True
     | Some (p, _) => chips p = chips'
     end.

(** The worlds a component can be rendered in: not yet mounted, with any
    count and console left by other instances, or after any number of
    renders with any props. *)
Inductive reachable (component : Env -> ChipListProps -> state World Element)
  : World -> Prop :=
| reachable_unmounted (count : Z) (lines : list LogLine) :
    reachable component (mkWorld count lines unmounted)
| reachable_render (w : World) (env : Env) (p : ChipListProps) :
    reachable component w ->
    env_ok env w (chips p) ->
    reachable component (execState (component env p) w).

End Hooks.

(* ===================================================================== *)
(** ** Statements of the specification kept for comparison *)
(* ===================================================================== *)

(** The truncation rule in the words of the specification: unchanged when
    the limit is absent or the label fits, else the first [maxTextLength]
    characters and one U+2026. *)
Definition spec_truncation (maxTextLength : number) (chip : Chip) : jsstring :=
  match maxTextLength with
  | None => label chip
  | Some m =>
      if length (label chip) <=? m then label chip
      else firstn (Z.to_nat m) (label chip) ++ [0x2026%N]
  end.

(** The visible length in the words of the specification. *)
Definition spec_visibleLength (chips : list Chip) (maxChips : number) : Z :=
  Z.min (length chips) (nullish maxChips (length chips)).

(** The truncation rule the components follow: a limit of [0] counts as no
    limit; a shortened label is the first [m] code units and one U+2026,
    which is not a run of three periods. *)
Definition truncation_law (maxTextLength : number) (chip : Chip) (out : jsstring)
  : Prop :=
  match maxTextLength with
  | None => out = label chip
  | Some m =>
      if (m =? 0) || (length (label chip) <=? m) then out = label chip
      else out = firstn (Z.to_nat m) (label chip) ++ [0x2026%N]
           /\ length out = m + 1
           /\ last out 0%N = 0x2026%N
           /\ out <> firstn (Z.to_nat m) (label chip) ++ lit "..."
  end.

(** How many chips the slicing step keeps. *)
Definition taken (chips : list Chip) (maxChips : number) : nat :=
  match maxChips with
  | None => List.length chips
  | Some m =>
      if m =? 0 then List.length chips
      else Z.to_nat (relative (length chips) m)
  end.

(** The numbers of the code are doubles, which hold every integer up to
    2^53 in magnitude, so a difference of two such integers comes out exact
    when it is at most 2^53.  That is the case for every [maxChips] that is
    absent or not below [length - 2^53]; a difference that is negative is
    turned into 0 by [Math.max] whether it was rounded or not. *)
Definition exactDifference (chips : list Chip) (maxChips : number) : Prop :=
  match maxChips with
  | None => True
  | Some m => length chips - m <= 2 ^ 53
  end.

(* ===================================================================== *)
(** ** [App] with its three children *)
(* ===================================================================== *)

(** A label as the insertion handler leaves it: not empty, and without
    white space at either end. *)
Definition tidy (s : jsstring) : Prop :=
  match s with
  | [] => False
  | c :: _ => isWhiteSpace c = false /\ isWhiteSpace (last s c) = false
  end.

(** The "mounted" lines of a console. *)
Fixpoint mountedLines (lines : list Hooks.LogLine) : nat :=
  match lines with
  | [] => O
  | Hooks.LogMounted _ _ _ :: rest => S (mountedLines rest)
  | _ :: rest => mountedLines rest
  end.

Module Demo.

(** The two readings of [Date.now()] of one child in one pass. *)
Definition Clock : Type := (Z * Z)%type.

Record Clocks : Type := mkClocks {
  forList : Clock;
  forMemo : Clock;
  forCusto : Clock
}.

Definition envOf (same : bool) (c : Clock) : Hooks.Env :=
  Hooks.mkEnv (fst c) (snd c) same.

(** The mounted application: the state of [App], the world of each child
    (each component file has its own [renderCount]; the console is kept per
    writer) and the element each child shows. *)
Record Tree : Type := mkTree {
  appState : App.State;
  listWorld : Hooks.World;
  memoWorld : Hooks.World;
  custoWorld : Hooks.World;
  listShown : Element;
  memoShown : Element;
  custoShown : Element
}.

(** The [return] of [App]: the plain [ChipList], [ChipListMemo] and
    [ChipListCusto] with [theme="dark"], all on the [chips] of the state.
    [same] tells whether [chips] is the array of the previous pass. *)
Definition renderChildren (same : bool) (c : Clocks) (s : App.State)
    (w1 w2 w3 : Hooks.World) : Tree :=
  let r1 := runState (Hooks.ChipList (envOf same (forList c))
                        (App.childProps s None)) w1 in
  let r2 := runState (Hooks.ChipListMemo (envOf same (forMemo c))
                        (App.childProps s None)) w2 in
  let r3 := runState (Hooks.ChipListCusto (envOf same (forCusto c))
                        (App.childProps s (Some "dark"%string))) w3 in
  mkTree s (snd r1) (snd r2) (snd r3) (fst r1) (fst r2) (fst r3).

(** The module-level state of a component file when it is loaded. *)
Definition loaded : Hooks.World := Hooks.mkWorld 0 [] Hooks.unmounted.

(** [useState(0)], [useState(initialSample)], [useState('')]. *)
Definition initialState : App.State := App.mkState 0 initialSample [].

(** The first pass. *)
Definition mount (c : Clocks) : Tree :=
  renderChildren false c initialState loaded loaded loaded.

(** What can happen to the mounted application: the interval fires, the
    user edits the input field, the user clicks "Add Chip". *)
Inductive Event : Type :=
| Tick
| Change (value : jsstring)
| Click.

(** The test of [handleAddChip]: whether it sets the state at all. *)
Definition accepts (s : App.State) : bool :=
  truthy_string (trim (App.inputValue s))
  && negb (existsb (fun chip => strict_eq (label chip) (trim (App.inputValue s)))
             (App.chips s)).

(** [setInputValue(e.target.value)] *)
Definition setInputValue (value : jsstring) (s : App.State) : App.State :=
  App.mkState (App.counter s) (App.chips s) value.

(** One event.  A state setter that leaves the state as it is causes no
    pass; a pass after [Tick] or [Change] hands the children the same
    [chips] array, a pass after an insertion a new one. *)
Definition step (ev : Event) (c : Clocks) (t : Tree) : Tree :=
  match ev with
  | Tick =>
      renderChildren true c (App.tick (appState t))
        (listWorld t) (memoWorld t) (custoWorld t)
  | Change value =>
      if strict_eq value (App.inputValue (appState t)) then t
      else renderChildren true c (setInputValue value (appState t))
             (listWorld t) (memoWorld t) (custoWorld t)
  | Click =>
      if accepts (appState t)
      then renderChildren false c (App.handleAddChip (appState t))
             (listWorld t) (memoWorld t) (custoWorld t)
      else t
  end.

(** The trees the application can be in. *)
Inductive reachable : Tree -> Prop :=
| reachable_mount (c : Clocks) : reachable (mount c)
| reachable_step (t : Tree) (ev : Event) (c : Clocks) :
    reachable t -> reachable (step ev c t).

(** The cells of a child that has rendered the props [p]: every hook cell
    filled, the memo cell on the dependencies of [p], the mount effect
    done, and [kept] in the cell of [React.memo]. *)
Definition settled (p : ChipListProps) (kept : option (ChipListProps * Element))
    (f : Hooks.Fiber) : Prop :=
  exists vc m t0,
    f = Hooks.mkFiber (Some vc)
          (Some ((chips p, maxChips p, maxTextLength p),
                 visibleChips (chips p) (maxChips p) (maxTextLength p)))
          (Some m) (Some t0) true kept.

(** What holds of every reachable tree: each child is settled on the
    current props and shows their element. *)
Definition consistent (t : Tree) : Prop :=
  let plain := App.childProps (appState t) None in
  let dark := App.childProps (appState t) (Some "dark"%string) in
  let light := view "light" (chips plain) (maxChips plain) (maxTextLength plain) in
  let darkView := view "dark" (chips dark) (maxChips dark) (maxTextLength dark) in
  settled plain None (Hooks.fiber (listWorld t))
  /\ settled plain (Some (plain, light)) (Hooks.fiber (memoWorld t))
  /\ settled dark (Some (dark, darkView)) (Hooks.fiber (custoWorld t))
  /\ listShown t = light
  /\ memoShown t = light
  /\ custoShown t = darkView.

(** The labels of a state as insertion keeps them: pairwise different,
    tidy, and the sample chips first. *)
Definition chips_ok (s : App.State) : Prop :=
  NoDup (map label (App.chips s))
  /\ Forall (fun chip => tidy (label chip)) (App.chips s)
  /\ exists added, App.chips s = initialSample ++ added.

(** The render counts of the three files against the state: the wrapped
    children have run once per chip added since the mount, and once at
    the mount; the plain one at least once more per tick. *)
Definition counts_ok (t : Tree) : Prop :=
  Hooks.renderCount (memoWorld t)
  = 1 + (length (App.chips (appState t)) - length initialSample)
  /\ Hooks.renderCount (custoWorld t) = Hooks.renderCount (memoWorld t)
  /\ Hooks.renderCount (memoWorld t) + App.counter (appState t)
     <= Hooks.renderCount (listWorld t).

(** A short session: mount, type " Rocq ", click, one tick. *)
Definition sampleClocks : Clocks := mkClocks (100, 104) (101, 105) (102, 106).

Definition sampleSession : Tree :=
  step Tick sampleClocks
    (step Click sampleClocks
       (step (Change (lit " Rocq ")) sampleClocks (mount sampleClocks))).

End Demo.

(* ===================================================================== *)
(** ** Built-ins *)
(* ===================================================================== *)

Lemma length_nonneg (A : Type) (l : list A) : 0 <= length l.
Proof. unfold length. lia. Qed.

Lemma length_zero (A : Type) (l : list A) : (length l =? 0) = true <-> l = [].
Proof.
  unfold length. rewrite Z.eqb_eq. destruct l as [|a l]; simpl; split; intros H.
  - reflexivity.
  - reflexivity.
  - lia.
  - discriminate H.
Qed.

Lemma length_cons_nonzero (A : Type) (a : A) (l : list A) :
  (length (a :: l) =? 0) = false.
Proof. unfold length. apply Z.eqb_neq. simpl List.length. lia. Qed.

Lemma relative_range (len i : Z) : 0 <= len -> 0 <= relative len i <= len.
Proof. unfold relative. intros H. destruct (Z.ltb_spec i 0); lia. Qed.

(** [slice(0, end)] is a prefix. *)
Lemma slice_from_zero (A : Type) (l : list A) (e : Z) :
  slice l 0 (Some e) = firstn (Z.to_nat (relative (length l) e)) l.
Proof.
  unfold slice. pose proof (length_nonneg l) as Hl.
  replace (relative (length l) 0) with 0
    by (unfold relative; simpl; lia).
  rewrite Z.sub_0_r. reflexivity.
Qed.

(** A positive end below the length keeps exactly that many elements. *)
Lemma slice_from_zero_positive (A : Type) (l : list A) (e : Z) :
  0 <= e -> slice l 0 (Some e) = firstn (Z.to_nat e) l.
Proof.
  intros He. rewrite slice_from_zero. unfold relative.
  destruct (Z.ltb_spec e 0) as [Hneg|_]; [lia|].
  destruct (Z.min_spec e (length l)) as [[_ ->]|[Hle ->]]; [reflexivity|].
  unfold length in *. rewrite Nat2Z.id.
  rewrite firstn_all. symmetry. apply firstn_all2. lia.
Qed.

(** A negative end drops that many elements from the back. *)
Lemma slice_from_zero_negative (A : Type) (l : list A) (k : Z) :
  0 < k -> slice l 0 (Some (- k)) = firstn (List.length l - Z.to_nat k) l.
Proof.
  intros Hk. rewrite slice_from_zero. unfold relative.
  destruct (Z.ltb_spec (- k) 0) as [_|Hge]; [|lia].
  f_equal. unfold length. lia.
Qed.

Lemma strict_eq_true (a b : jsstring) : strict_eq a b = true <-> a = b.
Proof.
  revert b. induction a as [|x a IH]; intros [|y b]; simpl; split; intros H;
    try reflexivity; try discriminate H.
  - apply andb_true_iff in H. destruct H as [Hxy Hab].
    apply N.eqb_eq in Hxy. apply IH in Hab. congruence.
  - injection H as -> ->. rewrite N.eqb_refl. simpl. apply IH. reflexivity.
Qed.

Lemma trimStart_head (s : jsstring) :
  match trimStart s with
  | [] => True
  | c :: _ => isWhiteSpace c = false
  end.
Proof.
  induction s as [|c s IH]; simpl; [exact I|].
  destruct (isWhiteSpace c) eqn:Hc; [exact IH | exact Hc].
Qed.

(** [trimStart] only removes white space from the front. *)
Lemma trimStart_suffix (s : jsstring) :
  exists ws, s = ws ++ trimStart s /\ forallb isWhiteSpace ws = true.
Proof.
  induction s as [|c s (ws & Hs & Hws)]; simpl.
  - exists []. split; reflexivity.
  - destruct (isWhiteSpace c) eqn:Hc.
    + exists (c :: ws). simpl. rewrite Hc, Hws. split; [congruence | reflexivity].
    + exists []. split; reflexivity.
Qed.

(** [trim] removes a run of white space at each end and nothing else, and
    what is left neither starts nor ends with white space. *)
Lemma trim_spec (s : jsstring) :
  exists front back,
    s = front ++ trim s ++ back
    /\ forallb isWhiteSpace front = true
    /\ forallb isWhiteSpace back = true
    /\ match trim s with
       | [] => True
       | c :: _ => isWhiteSpace c = false /\ isWhiteSpace (last (trim s) c) = false
       end.
Proof.
  destruct (trimStart_suffix s) as (front & Hs & Hfront).
  destruct (trimStart_suffix (rev (trimStart s))) as (kcab & Hr & Hback).
  exists front, (rev kcab).
  assert (Hmid : trimStart s = trim s ++ rev kcab).
  { unfold trim, trimEnd. rewrite <- rev_app_distr, <- Hr, rev_involutive.
    reflexivity. }
  split; [rewrite <- Hmid; exact Hs|].
  split; [exact Hfront|].
  split.
  { rewrite forallb_forall in *. intros x Hx. apply Hback.
    apply in_rev. exact Hx. }
  destruct (trim s) as [|c t] eqn:Ht; [exact I|].
  split.
  - pose proof (trimStart_head s) as Hh. rewrite Hmid in Hh. exact Hh.
  - pose proof (trimStart_head (rev (trimStart s))) as Hh.
    unfold trim, trimEnd in Ht.
    destruct (trimStart (rev (trimStart s))) as [|z zs] eqn:Hz.
    + discriminate Ht.
    + simpl rev in Ht. rewrite <- Ht. rewrite last_last. exact Hh.
Qed.

(* ===================================================================== *)
(** ** The projection *)
(* ===================================================================== *)

(** The labels shown are always the memoised ones, also on the early
    return, where both are empty. *)
Lemma project_visibleLabels (chips : list Chip) (maxChips maxTextLength : number) :
  visibleLabels (project chips maxChips maxTextLength)
  = visibleChips chips maxChips maxTextLength.
Proof.
  unfold project, view, returned, visibleChips.
  destruct (length chips =? 0); reflexivity.
Qed.

Lemma exceeding_nonneg (chips : list Chip) (maxChips : number) :
  0 <= exceeding chips maxChips.
Proof. unfold exceeding, Math_max. lia. Qed.

(** Past the early return the hidden count is [exceeding]: the aside is
    left out exactly when [exceeding] is 0. *)
Lemma project_hiddenCount_cons (c : Chip) (cs : list Chip)
    (maxChips maxTextLength : number) :
  hiddenCount (project (c :: cs) maxChips maxTextLength)
  = exceeding (c :: cs) maxChips.
Proof.
  unfold project, view, returned. rewrite length_cons_nonzero. simpl.
  pose proof (exceeding_nonneg (c :: cs) maxChips) as H.
  destruct (Z.gtb_spec (exceeding (c :: cs) maxChips) 0); simpl; lia.
Qed.

Lemma project_nil (maxChips maxTextLength : number) :
  project [] maxChips maxTextLength = mkResult [] 0.
Proof. reflexivity. Qed.

Lemma hiddenCount_nonneg (chips : list Chip) (maxChips maxTextLength : number) :
  0 <= hiddenCount (project chips maxChips maxTextLength).
Proof.
  destruct chips as [|c cs].
  - rewrite project_nil. simpl. lia.
  - rewrite project_hiddenCount_cons. apply exceeding_nonneg.
Qed.

(** The slicing step keeps a prefix, [taken] chips long. *)
Lemma visibleChips_prefix (chips : list Chip) (maxChips maxTextLength : number) :
  visibleChips chips maxChips maxTextLength
  = map (displayLabel maxTextLength) (firstn (taken chips maxChips) chips).
Proof.
  unfold visibleChips, taken. destruct chips as [|c cs].
  - simpl. rewrite firstn_nil. reflexivity.
  - rewrite length_cons_nonzero. destruct maxChips as [m|]; simpl truthy.
    + destruct (m =? 0); simpl negb; cbv iota.
      * rewrite firstn_all. reflexivity.
      * rewrite slice_from_zero. reflexivity.
    + cbv iota. rewrite firstn_all. reflexivity.
Qed.

Lemma taken_le (chips : list Chip) (maxChips : number) :
  (taken chips maxChips <= List.length chips)%nat.
Proof.
  unfold taken. destruct maxChips as [m|]; [|lia].
  destruct (m =? 0); [lia|].
  pose proof (relative_range (len := length chips) m (length_nonneg chips)) as H.
  unfold length in *. lia.
Qed.

Lemma visibleChips_length (chips : list Chip) (maxChips maxTextLength : number) :
  List.length (visibleChips chips maxChips maxTextLength) = taken chips maxChips.
Proof.
  rewrite visibleChips_prefix, length_map, length_firstn.
  pose proof (taken_le chips maxChips). lia.
Qed.

(** With a cap of at least one, or none, the visible length is the one of
    the specification. *)
Lemma visibleLabels_length_capped (chips : list Chip) (maxChips maxTextLength : number) :
  match maxChips with Some m => 1 <= m | None => True end ->
  length (visibleLabels (project chips maxChips maxTextLength))
  = spec_visibleLength chips maxChips.
Proof.
  intros Hm. rewrite project_visibleLabels. unfold length at 1.
  rewrite visibleChips_length. unfold taken, spec_visibleLength, nullish.
  destruct maxChips as [m|].
  - destruct (Z.eqb_spec m 0) as [->|_]; [lia|].
    pose proof (length_nonneg chips) as Hl.
    unfold relative. destruct (Z.ltb_spec m 0); [lia|].
    rewrite Z2Nat.id by lia. lia.
  - fold (length chips). lia.
Qed.

(** The display string of one chip under a limit that is not negative. *)
Lemma displayLabel_law (maxTextLength : number) (chip : Chip) :
  limit_ok maxTextLength ->
  truncation_law maxTextLength chip (displayLabel maxTextLength chip).
Proof.
  unfold limit_ok, truncation_law, displayLabel, truthy, le.
  destruct maxTextLength as [m|]; [|reflexivity].
  intros Hm. destruct (m =? 0) eqn:H0; simpl; [reflexivity|].
  destruct (length (label chip) <=? m) eqn:Hle; [reflexivity|].
  apply Z.eqb_neq in H0. apply Z.leb_gt in Hle.
  rewrite slice_from_zero_positive by exact Hm.
  assert (Hlen : List.length (firstn (Z.to_nat m) (label chip)) = Z.to_nat m).
  { rewrite length_firstn. unfold length in Hle. lia. }
  repeat split.
  - unfold length. rewrite length_app, Hlen. simpl. lia.
  - unfold ELLIPSIS. apply last_last.
  - unfold ELLIPSIS. intros Heq. apply app_inv_head in Heq. discriminate Heq.
Qed.

(* ===================================================================== *)
(** ** Number of visible labels *)
(* ===================================================================== *)

(** C1, at the input where the code departs from it: with one chip "A" and
    [maxChips = 0] the slicing step is skipped, so the one label is shown,
    where the specification asks for min(1, 0) = 0 labels; the hidden count
    on the same input is 1, computed with the cap taken as 0. *)
Theorem C1_maxChips_zero_keeps_every_chip :
  project [mkChip (lit "A")] (Some 0) None = mkResult [lit "A"] 1
  /\ length (visibleLabels (project [mkChip (lit "A")] (Some 0) None)) = 1
  /\ spec_visibleLength [mkChip (lit "A")] (Some 0) = 0.
Proof. repeat split. Qed.

(** C10: with [maxChips = 0] and at least one chip, every chip gets a
    display string while the hidden count is the whole length, so the two
    add up to twice the length; and with [maxTextLength = 0] every display
    string is its label, untouched. *)
Theorem C10_zero_limits_are_no_limits (c : Chip) (cs : list Chip)
    (maxChips maxTextLength : number) :
  visibleLabels (project (c :: cs) (Some 0) maxTextLength)
  = map (displayLabel maxTextLength) (c :: cs)
  /\ hiddenCount (project (c :: cs) (Some 0) maxTextLength) = length (c :: cs)
  /\ length (visibleLabels (project (c :: cs) (Some 0) maxTextLength))
     + hiddenCount (project (c :: cs) (Some 0) maxTextLength)
     = 2 * length (c :: cs)
  /\ displayLabel (Some 0) c = label c
  /\ visibleLabels (project (c :: cs) maxChips (Some 0))
     = map label (firstn (taken (c :: cs) maxChips) (c :: cs)).
Proof.
  assert (Hvis : visibleLabels (project (c :: cs) (Some 0) maxTextLength)
                 = map (displayLabel maxTextLength) (c :: cs)).
  { rewrite project_visibleLabels, visibleChips_prefix.
    unfold taken. rewrite Z.eqb_refl, firstn_all. reflexivity. }
  assert (Hhid : hiddenCount (project (c :: cs) (Some 0) maxTextLength)
                 = length (c :: cs)).
  { rewrite project_hiddenCount_cons. unfold exceeding, Math_max, nullish.
    pose proof (length_nonneg (c :: cs)). lia. }
  split; [exact Hvis|]. split; [exact Hhid|]. split.
  - rewrite Hvis, Hhid. unfold length. rewrite length_map. lia.
  - split; [reflexivity|].
    rewrite project_visibleLabels, visibleChips_prefix. reflexivity.
Qed.

(* ===================================================================== *)
(** ** Truncation of labels *)
(* ===================================================================== *)

(** C2 as stated fails at [maxTextLength = 0]: the label "A" is longer than
    0, so the stated rule gives the lone ellipsis, but the component shows
    "A". *)
Lemma C2_counterexample :
  visibleLabels (project [mkChip (lit "A")] None (Some 0)) = [lit "A"]
  /\ map (spec_truncation (Some 0)) [mkChip (lit "A")] = [[0x2026%N]]
  /\ visibleLabels (project [mkChip (lit "A")] None (Some 0))
     <> map (spec_truncation (Some 0)) [mkChip (lit "A")].
Proof. repeat split. discriminate. Qed.

(** C2, amended: for every taken chip, the display string is the label when
    [maxTextLength] is absent, is 0, or is at least the label's length;
    otherwise it is the first [maxTextLength] code units followed by the
    one code unit U+2026, so it is [maxTextLength + 1] long, ends in U+2026
    and is not the prefix followed by three periods. *)
Theorem C2_truncation (chips : list Chip) (maxChips maxTextLength : number) :
  limit_ok maxTextLength ->
  Forall2 (truncation_law maxTextLength)
    (firstn (List.length (visibleLabels (project chips maxChips maxTextLength)))
       chips)
    (visibleLabels (project chips maxChips maxTextLength)).
Proof.
  intros Hok. rewrite project_visibleLabels, visibleChips_length.
  rewrite visibleChips_prefix.
  induction (firstn (taken chips maxChips) chips) as [|chip rest IH]; simpl.
  - constructor.
  - constructor; [apply displayLabel_law; exact Hok | exact IH].
Qed.

Lemma C2_truncation_witness :
  limit_ok (Some 10)
  /\ Forall2 (truncation_law (Some 10))
       (firstn (List.length (visibleLabels (project initialSample (Some 3) (Some 10))))
          initialSample)
       (visibleLabels (project initialSample (Some 3) (Some 10))).
Proof.
  split.
  - simpl. lia.
  - apply (@C2_truncation initialSample (Some 3) (Some 10)). simpl. lia.
Defined.

(* ===================================================================== *)
(** ** Hidden count *)
(* ===================================================================== *)

(** C3: for every input whose [maxChips] is absent or not negative, the
    hidden count is max(0, length(chips) - (maxChips ?? length(chips))),
    and it is never negative. *)
Theorem C3_hiddenCount (chips : list Chip) (maxChips maxTextLength : number) :
  limit_ok maxChips ->
  hiddenCount (project chips maxChips maxTextLength)
  = Z.max 0 (length chips - nullish maxChips (length chips))
  /\ 0 <= hiddenCount (project chips maxChips maxTextLength).
Proof.
  intros Hok. split; [|apply hiddenCount_nonneg].
  destruct chips as [|c cs].
  - rewrite project_nil. simpl hiddenCount.
    destruct maxChips as [m|]; simpl in *; unfold length; simpl; lia.
  - rewrite project_hiddenCount_cons. unfold exceeding, Math_max. lia.
Qed.

Lemma C3_hiddenCount_witness :
  limit_ok (Some 3)
  /\ hiddenCount (project initialSample (Some 3) (Some 10))
     = Z.max 0 (length initialSample - nullish (Some 3) (length initialSample))
  /\ 0 <= hiddenCount (project initialSample (Some 3) (Some 10)).
Proof.
  split.
  - simpl. lia.
  - apply (@C3_hiddenCount initialSample (Some 3) (Some 10)). simpl. lia.
Defined.

(** Past the early return the formula holds for a negative cap as well,
    as far as the subtraction is exact. *)
Lemma hiddenCount_any_cap (c : Chip) (cs : list Chip) (maxChips maxTextLength : number) :
  exactDifference (c :: cs) maxChips ->
  hiddenCount (project (c :: cs) maxChips maxTextLength)
  = Z.max 0 (length (c :: cs) - nullish maxChips (length (c :: cs))).
Proof.
  intros _. rewrite project_hiddenCount_cons. unfold exceeding, Math_max. lia.
Qed.

(* ===================================================================== *)
(** ** Scenario of [App] *)
(* ===================================================================== *)

(** C4 as stated fails: the third label is not "Performan" and an ellipsis
    (nine characters kept). *)
Lemma C4_counterexample :
  project initialSample (Some 3) (Some 10)
  <> mkResult [lit "ReactJS"; lit "TypeScript"; lit "Performan" ++ ELLIPSIS] 2.
Proof. discriminate. Qed.

(** C4, amended: on the five sample chips with [maxChips = 3] and
    [maxTextLength = 10] the visible labels are "ReactJS", "TypeScript" and
    "Performanc" followed by U+2026 (ten characters kept), and the hidden
    count is 2. *)
Theorem C4_scenario_A :
  project initialSample (Some 3) (Some 10)
  = mkResult [lit "ReactJS"; lit "TypeScript"; lit "Performanc" ++ ELLIPSIS] 2.
Proof. reflexivity. Qed.

(** Scenario B: no limits, all five labels, nothing hidden. *)
Example scenario_B :
  project initialSample None None = mkResult (map label initialSample) 0.
Proof. reflexivity. Qed.

(* ===================================================================== *)
(** ** Order *)
(* ===================================================================== *)

(** C5: the visible labels are the display strings of the first [k] chips,
    in the order of the input, for [k] the number of visible labels. *)
Theorem C5_order_preserved (chips : list Chip) (maxChips maxTextLength : number) :
  visibleLabels (project chips maxChips maxTextLength)
  = map (displayLabel maxTextLength)
      (firstn (List.length (visibleLabels (project chips maxChips maxTextLength)))
         chips).
Proof.
  rewrite project_visibleLabels, visibleChips_length.
  apply visibleChips_prefix.
Qed.

(** Position by position: label [i] comes from chip [i]. *)
Lemma visibleLabels_nth (chips : list Chip) (maxChips maxTextLength : number)
    (i : nat) (out : jsstring) :
  nth_error (visibleLabels (project chips maxChips maxTextLength)) i = Some out ->
  exists chip, nth_error chips i = Some chip /\ out = displayLabel maxTextLength chip.
Proof.
  rewrite project_visibleLabels, visibleChips_prefix, nth_error_map.
  destruct (nth_error (firstn (taken chips maxChips) chips) i) as [chip|] eqn:Hn;
    simpl; intros H; [|discriminate H].
  exists chip. split; [|congruence].
  destruct (Nat.ltb_spec i (taken chips maxChips)) as [Hlt|Hge].
  - rewrite nth_error_firstn in Hn.
    destruct (Nat.ltb_spec i (taken chips maxChips)); [exact Hn | lia].
  - rewrite nth_error_firstn in Hn.
    destruct (Nat.ltb_spec i (taken chips maxChips)); [lia | discriminate Hn].
Qed.

(* ===================================================================== *)
(** ** Negative limits *)
(* ===================================================================== *)

(** C6 as stated fails.  The component body has no [throw]: for
    [maxChips = -1] on two chips it returns a result, and that result is
    not the one for [maxChips = 0]; likewise [maxTextLength = -1] shortens
    "AB" where [maxTextLength = 0] leaves it whole. *)
Lemma C6_counterexample :
  project [mkChip (lit "A"); mkChip (lit "B")] (Some (-1)) None
  = mkResult [lit "A"] 3
  /\ project [mkChip (lit "A"); mkChip (lit "B")] (Some 0) None
     = mkResult [lit "A"; lit "B"] 2
  /\ project [mkChip (lit "A"); mkChip (lit "B")] (Some (-1)) None
     <> project [mkChip (lit "A"); mkChip (lit "B")] (Some 0) None
  /\ project [mkChip (lit "AB")] None (Some (-1))
     = mkResult [lit "A" ++ ELLIPSIS] 0
  /\ project [mkChip (lit "AB")] None (Some 0) = mkResult [lit "AB"] 0.
Proof. repeat split. discriminate. Qed.

(** C6, amended: a negative limit is neither rejected nor read as 0.  With
    [maxChips = -k] on a non-empty list, [k] small enough for length + k
    to be at most 2^53 (where the subtraction of the code is exact), the
    last [k] chips are dropped from the visible labels (all of them when
    [k] is at least the length) and the hidden count is length + k; with
    [maxTextLength = -m] every display string is the label without its last
    [m] code units, followed by U+2026. *)
Theorem C6_negative_limits (c : Chip) (cs : list Chip) (k m : Z)
    (maxChips maxTextLength : number) (chip : Chip) :
  0 < k -> 0 < m ->
  exactDifference (c :: cs) (Some (- k)) ->
  project (c :: cs) (Some (- k)) maxTextLength
  = mkResult
      (map (displayLabel maxTextLength)
         (firstn (List.length (c :: cs) - Z.to_nat k) (c :: cs)))
      (length (c :: cs) + k)
  /\ displayLabel (Some (- m)) chip
     = firstn (List.length (label chip) - Z.to_nat m) (label chip) ++ ELLIPSIS.
Proof.
  intros Hk Hm _. split.
  - pose proof (project_visibleLabels (c :: cs) (Some (- k)) maxTextLength) as Hv.
    pose proof (project_hiddenCount_cons c cs (Some (- k)) maxTextLength) as Hh.
    destruct (project (c :: cs) (Some (- k)) maxTextLength) as [vis hid].
    simpl in Hv, Hh. subst vis hid. f_equal.
    + unfold visibleChips. rewrite length_cons_nonzero.
      unfold truthy. destruct (Z.eqb_spec (- k) 0) as [H0|_]; [lia|].
      simpl negb. cbv iota. rewrite slice_from_zero_negative by exact Hk.
      reflexivity.
    + unfold exceeding, Math_max, nullish.
      pose proof (length_nonneg (c :: cs)). lia.
  - unfold displayLabel, truthy, le.
    destruct (Z.eqb_spec (- m) 0) as [H0|_]; [lia|].
    pose proof (length_nonneg (label chip)) as Hl.
    destruct (Z.leb_spec (length (label chip)) (- m)) as [Hle|_]; [lia|].
    simpl. rewrite slice_from_zero_negative by exact Hm. reflexivity.
Qed.

Lemma C6_negative_limits_witness :
  0 < 1 /\ 0 < 1
  /\ exactDifference [mkChip (lit "A"); mkChip (lit "B")] (Some (- (1)))
  /\ project [mkChip (lit "A"); mkChip (lit "B")] (Some (- (1))) None
     = mkResult
         (map (displayLabel None)
            (firstn (List.length [mkChip (lit "A"); mkChip (lit "B")] - Z.to_nat 1)
               [mkChip (lit "A"); mkChip (lit "B")]))
         (length [mkChip (lit "A"); mkChip (lit "B")] + 1)
  /\ displayLabel (Some (- (1))) (mkChip (lit "AB"))
     = firstn (List.length (label (mkChip (lit "AB"))) - Z.to_nat 1)
         (label (mkChip (lit "AB"))) ++ ELLIPSIS.
Proof.
  assert (He : exactDifference [mkChip (lit "A"); mkChip (lit "B")] (Some (- (1))))
    by (vm_compute; discriminate).
  split; [lia|]. split; [lia|]. split; [exact He|].
  apply (@C6_negative_limits (mkChip (lit "A")) [mkChip (lit "B")] 1 1
           None None (mkChip (lit "AB"))); [lia | lia | exact He].
Defined.

(* ===================================================================== *)
(** ** Insertion *)
(* ===================================================================== *)

Lemma existsb_label (existing : list Chip) (t : jsstring) :
  existsb (fun chip => strict_eq (label chip) t) existing = true
  <-> Exists (fun chip => label chip = t) existing.
Proof.
  rewrite existsb_exists, Exists_exists.
  split; intros (chip & Hin & H); exists chip; split; try exact Hin;
    apply strict_eq_true; exact H.
Qed.

(** The two outcomes of an insertion. *)
Lemma addChip_cases (existing : list Chip) (candidateText : jsstring) :
  ((trim candidateText = []
    \/ Exists (fun chip => label chip = trim candidateText) existing)
   /\ addChip existing candidateText = existing)
  \/ (trim candidateText <> []
      /\ Forall (fun chip => label chip <> trim candidateText) existing
      /\ addChip existing candidateText
         = existing ++ [mkChip (trim candidateText)]).
Proof.
  unfold addChip, App.handleAddChip.
  cbn [App.inputValue App.chips App.counter].
  destruct (trim candidateText) as [|x t] eqn:Ht.
  - left. split; [left; reflexivity | reflexivity].
  - simpl truthy_string. rewrite andb_true_l.
    destruct (existsb (fun chip => strict_eq (label chip) (x :: t)) existing) eqn:He.
    + left. split; [right; apply existsb_label; exact He | reflexivity].
    + right. split; [discriminate|]. split; [|reflexivity].
      apply Forall_forall. intros chip Hin Heq.
      assert (Hex : existsb (fun chip => strict_eq (label chip) (x :: t)) existing = true).
      { apply existsb_exists. exists chip. split; [exact Hin|].
        apply strict_eq_true. exact Heq. }
      congruence.
Qed.

(** C7: [addChip] trims the candidate text; when the trimmed text is empty
    or is the label of an existing chip (exact match) the list comes back
    unchanged; otherwise exactly one chip, labelled with the trimmed text,
    is appended at the end. *)
Theorem C7_addChip (existing : list Chip) (candidateText : jsstring) :
  ((trim candidateText = []
    \/ Exists (fun chip => label chip = trim candidateText) existing)
   /\ addChip existing candidateText = existing)
  \/ (trim candidateText <> []
      /\ Forall (fun chip => label chip <> trim candidateText) existing
      /\ addChip existing candidateText
         = existing ++ [mkChip (trim candidateText)]).
Proof. exact (addChip_cases existing candidateText). Qed.

(** The insertion scenario: a duplicate after trimming, then a new label. *)
Example addChip_duplicate :
  addChip [mkChip (lit "A")] (lit "  A  ") = [mkChip (lit "A")].
Proof. reflexivity. Qed.

Example addChip_new :
  addChip [mkChip (lit "A")] (lit "B") = [mkChip (lit "A"); mkChip (lit "B")].
Proof. reflexivity. Qed.

(** Matching is exact: a label in another case is a new chip. *)
Example addChip_case_sensitive :
  addChip [mkChip (lit "A")] (lit "a") = [mkChip (lit "A"); mkChip (lit "a")].
Proof. reflexivity. Qed.

(** The handler leaves the counter alone and clears the input field only
    when it appends. *)
Lemma handleAddChip_chips (s : App.State) :
  App.chips (App.handleAddChip s) = addChip (App.chips s) (App.inputValue s)
  /\ App.counter (App.handleAddChip s) = App.counter s.
Proof.
  unfold addChip, App.handleAddChip. simpl.
  destruct (truthy_string (trim (App.inputValue s))
            && negb (existsb (fun chip => strict_eq (label chip)
                                            (trim (App.inputValue s)))
                       (App.chips s))); split; reflexivity.
Qed.

(** Labels stay pairwise different under insertion. *)
Lemma addChip_NoDup (existing : list Chip) (candidateText : jsstring) :
  NoDup (map label existing) -> NoDup (map label (addChip existing candidateText)).
Proof.
  intros Hnd.
  destruct (addChip_cases existing candidateText) as [[_ ->]|(_ & Hall & ->)];
    [exact Hnd|].
  rewrite map_app. simpl. apply NoDup_app; [exact Hnd | |].
  - constructor; [intros [] | constructor].
  - intros a Hin [<-|[]]. apply in_map_iff in Hin.
    destruct Hin as (chip & Hl & Hc).
    rewrite Forall_forall in Hall. exact (Hall chip Hc Hl).
Qed.

(* ===================================================================== *)
(** ** Empty list *)
(* ===================================================================== *)

(** C8: on the empty list the projection is no labels and a hidden count of
    0, and the caller can tell the case apart: the component returns the
    "No chips available" section exactly when the list is empty. *)
Theorem C8_empty_chips (maxChips maxTextLength : number) (themeClass : string) :
  project [] maxChips maxTextLength = mkResult [] 0
  /\ view themeClass [] maxChips maxTextLength = EmptySection themeClass
  /\ forall chips : list Chip,
       isEmptySection (view themeClass chips maxChips maxTextLength)
       = match chips with [] => true | _ :: _ => false end.
Proof.
  split; [reflexivity|]. split; [reflexivity|].
  intros [|c cs]; [reflexivity|].
  unfold view, returned. rewrite length_cons_nonzero. reflexivity.
Qed.

(* ===================================================================== *)
(** ** Renders with hooks *)
(* ===================================================================== *)

Module HooksFacts.

Import Hooks.
Import MonadNotation.
Local Open Scope monad_scope.

Lemma run_bind (A B : Type) (c : state World A) (f : A -> state World B) (w : World) :
  runState (bind c f) w
  = runState (f (fst (runState c w))) (snd (runState c w)).
Proof. cbn. destruct (runState c w) as [a w']. reflexivity. Qed.

(** Steps that leave the memo cell and the kept element as they were. *)
Lemma when_log_frame (b : bool) (l : LogLine) (w : World) :
  memo (fiber (snd (runState (when b (console_log l)) w))) = memo (fiber w)
  /\ committed (fiber (snd (runState (when b (console_log l)) w)))
     = committed (fiber w).
Proof. destruct b; split; reflexivity. Qed.

Lemma useState_frame (init : unit -> Z) (w : World) :
  memo (fiber (snd (runState (useState init) w))) = memo (fiber w)
  /\ committed (fiber (snd (runState (useState init) w))) = committed (fiber w).
Proof.
  unfold useState. cbn.
  destruct (visibleCount (fiber w)); split; reflexivity.
Qed.

Lemma useRef_mountCount_frame (initial : Z) (w : World) :
  memo (fiber (snd (runState (useRef_mountCount initial) w))) = memo (fiber w)
  /\ committed (fiber (snd (runState (useRef_mountCount initial) w)))
     = committed (fiber w).
Proof.
  unfold useRef_mountCount. cbn.
  destruct (mountCount (fiber w)); split; reflexivity.
Qed.

Lemma useRef_lastRenderTime_frame (initial : Z) (w : World) :
  memo (fiber (snd (runState (useRef_lastRenderTime initial) w))) = memo (fiber w)
  /\ committed (fiber (snd (runState (useRef_lastRenderTime initial) w)))
     = committed (fiber w).
Proof.
  unfold useRef_lastRenderTime. cbn.
  destruct (lastRenderTime (fiber w)); split; reflexivity.
Qed.

Lemma renderEffect_frame (name : string) (themed : bool) (p : ChipListProps)
    (w : World) :
  memo (fiber (snd (runState (renderEffect name themed p) w))) = memo (fiber w)
  /\ committed (fiber (snd (runState (renderEffect name themed p) w)))
     = committed (fiber w).
Proof. unfold renderEffect. destruct themed; split; reflexivity. Qed.

Lemma mountEffect_frame (name : string) (themed : bool) (env : Env)
    (p : ChipListProps) (w : World) :
  memo (fiber (snd (runState (mountEffect name themed env p) w))) = memo (fiber w)
  /\ committed (fiber (snd (runState (mountEffect name themed env p) w)))
     = committed (fiber w).
Proof.
  unfold mountEffect. cbn.
  destruct (mountEffectRan (fiber w)); [split; reflexivity|].
  destruct themed; split; reflexivity.
Qed.

Lemma number_is_eq (a b : number) : number_is a b = true -> a = b.
Proof.
  destruct a as [x|], b as [y|]; simpl; intros H;
    try reflexivity; try discriminate H.
  apply Z.eqb_eq in H. congruence.
Qed.

Lemma string_is_eq (a b : option string) : string_is a b = true -> a = b.
Proof.
  destruct a as [x|], b as [y|]; simpl; intros H;
    try reflexivity; try discriminate H.
  apply String.eqb_eq in H. congruence.
Qed.

Lemma propsUnchanged_eq (same : bool) (old new : ChipListProps) :
  propsUnchanged same old new = true ->
  same = true /\ maxChips old = maxChips new
  /\ maxTextLength old = maxTextLength new /\ theme old = theme new.
Proof.
  unfold propsUnchanged. rewrite !andb_true_iff.
  intros [[[Hs Hc] Hl] Ht].
  auto using number_is_eq, string_is_eq.
Qed.

(** [useMemo] returns the labels of the current props, from the cell or
    freshly computed, and leaves a cell that is right again. *)
Lemma useMemo_run (env : Env) (chips : list Chip) (maxChips maxTextLength : number)
    (w : World) :
  memo_ok w -> env_ok env w chips ->
  fst (runState (useMemo env (fun _ => visibleChips chips maxChips maxTextLength)
                   (chips, maxChips, maxTextLength)) w)
  = visibleChips chips maxChips maxTextLength
  /\ memo_ok (snd (runState (useMemo env
                               (fun _ => visibleChips chips maxChips maxTextLength)
                               (chips, maxChips, maxTextLength)) w))
  /\ committed (fiber (snd (runState (useMemo env
                               (fun _ => visibleChips chips maxChips maxTextLength)
                               (chips, maxChips, maxTextLength)) w)))
     = committed (fiber w).
Proof.
  unfold memo_ok, env_ok, useMemo. cbn.
  destruct (memo (fiber w)) as [[[[old mc] mtl] v]|] eqn:Hm; cbn.
  - intros Hv Hsame.
    destruct (sameChips env) eqn:Hs; cbn.
    + destruct (number_is mc maxChips) eqn:H1; cbn.
      * destruct (number_is mtl maxTextLength) eqn:H2; cbn.
        -- apply number_is_eq in H1, H2. rewrite Hm. subst.
           destruct (Hsame eq_refl) as [<- _]. repeat split.
        -- repeat split.
      * repeat split.
    + repeat split.
  - intros _ _. repeat split.
Qed.

Lemma memo_ok_same (w w' : World) :
  memo (fiber w') = memo (fiber w) -> memo_ok w -> memo_ok w'.
Proof. unfold memo_ok. intros ->. exact (fun H => H). Qed.

Lemma env_ok_same (env : Env) (w w' : World) (chips : list Chip) :
  memo (fiber w') = memo (fiber w) ->
  committed (fiber w') = committed (fiber w) ->
  env_ok env w chips -> env_ok env w' chips.
Proof. unfold env_ok. intros -> ->. exact (fun H => H). Qed.

Section Render.

Variable name : string.
Variable themed : bool.
Variable env : Env.
Variable p : ChipListProps.
Variable w : World.
Hypothesis Hmemo : memo_ok w.
Hypothesis Henv : env_ok env w (chips p).

(** The body returns the element of the current props and keeps the memo
    cell right. *)
Lemma body_run :
  fst (runState (body themed env p) w)
  = view (themeClass themed p) (chips p) (maxChips p) (maxTextLength p)
  /\ memo_ok (snd (runState (body themed env p) w))
  /\ committed (fiber (snd (runState (body themed env p) w))) = committed (fiber w).
Proof.
  unfold body. rewrite !run_bind.
  set (w1 := snd (runState (when themed (console_log (LogTheme (themeClass themed p)))) w)).
  destruct (when_log_frame themed (LogTheme (themeClass themed p)) w) as [M1 C1].
  fold w1 in M1, C1.
  set (w2 := snd (runState (useState _) w1)).
  destruct (useState_frame
              (fun _ => Math_min (length (chips p))
                          (nullish (maxChips p) (length (chips p)))) w1)
    as [M2 C2].
  fold w2 in M2, C2. rewrite M1 in M2. rewrite C1 in C2.
  destruct (@useMemo_run env (chips p) (maxChips p) (maxTextLength p) w2
              (@memo_ok_same w w2 M2 Hmemo)
              (@env_ok_same env w w2 (chips p) M2 C2 Henv))
    as (Hv & Hok & C3).
  set (r := runState (useMemo _ _ _) w2) in *.
  set (w4 := snd (runState (useRef_mountCount 0) (snd r))).
  destruct (useRef_mountCount_frame 0 (snd r)) as [M4 C4]. fold w4 in M4, C4.
  destruct (useRef_lastRenderTime_frame (nowRender env) w4) as [M5 C5].
  cbn [ret Monad_state runState fst snd]. split; [|split].
  - unfold view. rewrite Hv. reflexivity.
  - apply memo_ok_same with (w := snd r); [|exact Hok]. congruence.
  - congruence.
Qed.

(** One run shows the element of the current props, whatever the cells,
    the count and the console held before, and keeps the memo cell right. *)
Lemma render_run :
  evalState (render name themed env p) w
  = view (themeClass themed p) (chips p) (maxChips p) (maxTextLength p)
  /\ memo_ok (execState (render name themed env p) w)
  /\ committed (fiber (execState (render name themed env p) w))
     = committed (fiber w).
Proof.
  unfold evalState, execState, render. rewrite !run_bind.
  destruct body_run as (Hv & Hok & Hc).
  set (rb := runState (body _ _ _) w) in *.
  set (w1 := snd (runState (renderEffect name themed p) (snd rb))).
  destruct (renderEffect_frame name themed p (snd rb)) as [M1 C1].
  fold w1 in M1, C1.
  destruct (mountEffect_frame name themed env p w1) as [M2 C2].
  cbn [ret Monad_state runState fst snd]. split; [exact Hv|]. split.
  - apply memo_ok_same with (w := snd rb); [|exact Hok]. congruence.
  - congruence.
Qed.

Hypothesis Hcommitted : committed_ok themed w.

(** Under [React.memo] the element is still the one of the current props,
    whether the function ran or the kept element was reused. *)
Lemma React_memo_run :
  evalState (React_memo (render name themed) env p) w
  = view (themeClass themed p) (chips p) (maxChips p) (maxTextLength p)
  /\ memo_ok (execState (React_memo (render name themed) env p) w)
  /\ committed_ok themed (execState (React_memo (render name themed) env p) w).
Proof.
  destruct render_run as (Hv & Hok & Hc).
  unfold evalState, execState in *.
  assert (Hrun :
    forall run : state World Element,
      run = (e <- render name themed env p ;;
             modify (withFiber (setCommitted p e)) ;; ret e) ->
      fst (runState run w)
      = view (themeClass themed p) (chips p) (maxChips p) (maxTextLength p)
      /\ memo_ok (snd (runState run w))
      /\ committed_ok themed (snd (runState run w))).
  { intros run ->. rewrite !run_bind.
    set (rr := runState (render name themed env p) w) in *.
    cbn. split; [exact Hv|]. split.
    - exact Hok.
    - unfold committed_ok. cbn. exact Hv. }
  unfold React_memo. cbn [bind Monad_state runState get MonadState_state].
  unfold committed_ok, env_ok in *.
  destruct (committed (fiber w)) as [[old e]|] eqn:Hold.
  - destruct (propsUnchanged (sameChips env) old p) eqn:Hsame.
    + apply propsUnchanged_eq in Hsame. destruct Hsame as (Hs & Hmc & Hmtl & Hth).
      destruct (Henv Hs) as [_ Hchips].
      cbn. rewrite Hold. split; [|split; [exact Hmemo | exact Hcommitted]].
      rewrite Hcommitted. unfold themeClass. rewrite Hth, Hmc, Hmtl, Hchips.
      reflexivity.
    + apply Hrun. reflexivity.
  - apply Hrun. reflexivity.
Qed.

End Render.

(** Every run of the function bumps the module-level count by one. *)
Lemma render_renderCount (name : string) (themed : bool) (env : Env)
    (p : ChipListProps) (w : World) :
  renderCount (execState (render name themed env p) w) = renderCount w + 1.
Proof.
  unfold execState, render, body, renderEffect, mountEffect, useState, useMemo,
    useRef_mountCount, useRef_lastRenderTime.
  destruct w as [count lines [vc me mo la ran co]].
  destruct themed, vc, me as [[d v]|], mo, la, ran; cbn;
    try destruct (depsUnchanged (sameChips env) d
                    (chips p, maxChips p, maxTextLength p));
    reflexivity.
Qed.

(** The cells are right in every reachable world. *)
Lemma reachable_render_ok (name : string) (themed : bool) (w : World) :
  reachable (render name themed) w -> memo_ok w.
Proof.
  induction 1 as [count lines | w env p _ IH Henv].
  - exact I.
  - apply render_run; assumption.
Qed.

Lemma reachable_React_memo_ok (name : string) (themed : bool) (w : World) :
  reachable (React_memo (render name themed)) w ->
  memo_ok w /\ committed_ok themed w.
Proof.
  induction 1 as [count lines | w env p _ [IHm IHc] Henv].
  - split; exact I.
  - apply React_memo_run; assumption.
Qed.

End HooksFacts.

(* ===================================================================== *)
(** ** Theme and hidden state *)
(* ===================================================================== *)

(** The theme class is not part of what a caller reads off an element. *)
Lemma observe_view (themeClass : string) (chips : list Chip)
    (maxChips maxTextLength : number) :
  observe (view themeClass chips maxChips maxTextLength)
  = project chips maxChips maxTextLength.
Proof.
  unfold project, view, returned.
  destruct (length chips =? 0); reflexivity.
Qed.

(** The plain variant, in every reachable world, shows the projection of
    its current props. *)
Lemma ChipList_projection (env : Hooks.Env) (p : ChipListProps) (w : Hooks.World) :
  Hooks.reachable Hooks.ChipList w ->
  Hooks.env_ok env w (chips p) ->
  observe (evalState (Hooks.ChipList env p) w)
  = project (chips p) (maxChips p) (maxTextLength p).
Proof.
  intros Hreach Henv. unfold Hooks.ChipList in *.
  destruct (@HooksFacts.render_run "ChipList" false env p w
              (HooksFacts.reachable_render_ok Hreach) Henv) as [-> _].
  apply observe_view.
Qed.

(** So do the variants under [React.memo]. *)
Lemma React_memo_projection (name : string) (themed : bool) (env : Hooks.Env)
    (p : ChipListProps) (w : Hooks.World) :
  Hooks.reachable (Hooks.React_memo (Hooks.render name themed)) w ->
  Hooks.env_ok env w (chips p) ->
  observe (evalState (Hooks.React_memo (Hooks.render name themed) env p) w)
  = project (chips p) (maxChips p) (maxTextLength p).
Proof.
  intros Hreach Henv.
  destruct (HooksFacts.reachable_React_memo_ok Hreach) as [Hm Hc].
  destruct (@HooksFacts.React_memo_run name themed env p w Hm Henv Hc) as [-> _].
  apply observe_view.
Qed.

Lemma ChipListMemo_projection (env : Hooks.Env) (p : ChipListProps) (w : Hooks.World) :
  Hooks.reachable Hooks.ChipListMemo w ->
  Hooks.env_ok env w (chips p) ->
  observe (evalState (Hooks.ChipListMemo env p) w)
  = project (chips p) (maxChips p) (maxTextLength p).
Proof. apply React_memo_projection. Qed.

(** C9: two renders of [ChipListCusto] whose props differ at most in the
    theme show the same visible labels and the same hidden count, and so do
    two renders on the same props: the result does not depend on the hook
    cells, the element kept by [React.memo], the render count, the console
    or the clock the render starts from; it is the projection of the
    props. *)
Theorem C9_theme_noninterference (w1 w2 : Hooks.World) (env1 env2 : Hooks.Env)
    (chips : list Chip) (maxChips maxTextLength : number)
    (theme1 theme2 : option string) :
  Hooks.reachable Hooks.ChipListCusto w1 ->
  Hooks.reachable Hooks.ChipListCusto w2 ->
  Hooks.env_ok env1 w1 chips ->
  Hooks.env_ok env2 w2 chips ->
  observe (evalState
             (Hooks.ChipListCusto env1 (mkProps chips maxChips maxTextLength theme1))
             w1)
  = observe (evalState
               (Hooks.ChipListCusto env2 (mkProps chips maxChips maxTextLength theme2))
               w2)
  /\ observe (evalState
                (Hooks.ChipListCusto env1
                   (mkProps chips maxChips maxTextLength theme1)) w1)
     = project chips maxChips maxTextLength.
Proof.
  intros Hr1 Hr2 He1 He2. unfold Hooks.ChipListCusto in *.
  rewrite (@React_memo_projection "ChipListCusto" true env1
             (mkProps chips maxChips maxTextLength theme1) w1 Hr1 He1).
  rewrite (@React_memo_projection "ChipListCusto" true env2
             (mkProps chips maxChips maxTextLength theme2) w2 Hr2 He2).
  split; reflexivity.
Qed.

Lemma C9_theme_noninterference_witness :
  Hooks.reachable Hooks.ChipListCusto (Hooks.mkWorld 0 [] Hooks.unmounted)
  /\ Hooks.reachable Hooks.ChipListCusto
       (execState
          (Hooks.ChipListCusto (Hooks.mkEnv 0 1 false)
             (mkProps initialSample (Some 3) (Some 10) (Some "dark"%string)))
          (Hooks.mkWorld 0 [] Hooks.unmounted))
  /\ (observe (evalState
                 (Hooks.ChipListCusto (Hooks.mkEnv 0 1 false)
                    (mkProps initialSample (Some 3) (Some 10) (Some "dark"%string)))
                 (Hooks.mkWorld 0 [] Hooks.unmounted))
      = observe (evalState
                   (Hooks.ChipListCusto (Hooks.mkEnv 5 6 true)
                      (mkProps initialSample (Some 3) (Some 10) None))
                   (execState
                      (Hooks.ChipListCusto (Hooks.mkEnv 0 1 false)
                         (mkProps initialSample (Some 3) (Some 10)
                            (Some "dark"%string)))
                      (Hooks.mkWorld 0 [] Hooks.unmounted)))
      /\ observe (evalState
                    (Hooks.ChipListCusto (Hooks.mkEnv 0 1 false)
                       (mkProps initialSample (Some 3) (Some 10)
                          (Some "dark"%string)))
                    (Hooks.mkWorld 0 [] Hooks.unmounted))
         = project initialSample (Some 3) (Some 10)).
Proof.
  assert (H1 : Hooks.reachable Hooks.ChipListCusto
                 (Hooks.mkWorld 0 [] Hooks.unmounted))
    by apply Hooks.reachable_unmounted.
  assert (H2 : Hooks.reachable Hooks.ChipListCusto
                 (execState
                    (Hooks.ChipListCusto (Hooks.mkEnv 0 1 false)
                       (mkProps initialSample (Some 3) (Some 10)
                          (Some "dark"%string)))
                    (Hooks.mkWorld 0 [] Hooks.unmounted))).
  { apply Hooks.reachable_render; [exact H1 | intros _; split; exact I]. }
  split; [exact H1|]. split; [exact H2|].
  apply (@C9_theme_noninterference _ _ (Hooks.mkEnv 0 1 false) (Hooks.mkEnv 5 6 true)
           initialSample (Some 3) (Some 10) (Some "dark"%string) None H1 H2).
  - intros _. split; exact I.
  - intros _. split; reflexivity.
Defined.

(** The first render of [ChipListCusto] in [App], with its log lines. *)
Example ChipListCusto_mount :
  runState
    (Hooks.ChipListCusto (Hooks.mkEnv 100 104 false)
       (App.childProps (App.mkState 0 initialSample []) (Some "dark"%string)))
    (Hooks.mkWorld 0 [] Hooks.unmounted)
  = (ChipSection "dark"
       [lit "ReactJS"; lit "TypeScript"; lit "Performanc" ++ ELLIPSIS] (Some 2),
     Hooks.mkWorld 1
       [Hooks.LogTheme "dark"; Hooks.LogTheme "dark";
        Hooks.LogRendered "ChipListCusto" 1; Hooks.LogTheme "dark";
        Hooks.LogMounted "ChipListCusto" 0 4]
       (Hooks.mkFiber (Some 3)
          (Some ((initialSample, Some 3, Some 10),
                 [lit "ReactJS"; lit "TypeScript"; lit "Performanc" ++ ELLIPSIS]))
          (Some 0) (Some 104) true
          (Some (mkProps initialSample (Some 3) (Some 10) (Some "dark"%string),
                 ChipSection "dark"
                   [lit "ReactJS"; lit "TypeScript"; lit "Performanc" ++ ELLIPSIS]
                   (Some 2))))).
Proof. reflexivity. Qed.

(** A second render with the very same props: [React.memo] keeps the
    element, the function does not run and nothing is logged. *)
Example ChipListCusto_bailout (w : Hooks.World) :
  Hooks.committed (Hooks.fiber w)
  = Some (mkProps initialSample (Some 3) (Some 10) (Some "dark"%string),
          ChipSection "dark"
            [lit "ReactJS"; lit "TypeScript"; lit "Performanc" ++ ELLIPSIS]
            (Some 2)) ->
  runState
    (Hooks.ChipListCusto (Hooks.mkEnv 200 204 true)
       (mkProps initialSample (Some 3) (Some 10) (Some "dark"%string)))
    w
  = (ChipSection "dark"
       [lit "ReactJS"; lit "TypeScript"; lit "Performanc" ++ ELLIPSIS] (Some 2),
     w).
Proof.
  intros H. unfold Hooks.ChipListCusto, Hooks.React_memo. cbn.
  rewrite H. reflexivity.
Qed.

(* ===================================================================== *)
(** ** More on the projection *)
(* ===================================================================== *)

Lemma project_eta (chips : list Chip) (maxChips maxTextLength : number) :
  project chips maxChips maxTextLength
  = mkResult (visibleChips chips maxChips maxTextLength)
      (hiddenCount (project chips maxChips maxTextLength)).
Proof.
  rewrite <- project_visibleLabels.
  destruct (project chips maxChips maxTextLength). reflexivity.
Qed.

(** With a cap of at least one the slicing step keeps [min m length]
    chips. *)
Lemma taken_capped (chips : list Chip) (m : Z) :
  1 <= m -> taken chips (Some m) = Nat.min (Z.to_nat m) (List.length chips).
Proof.
  intros Hm. unfold taken. destruct (Z.eqb_spec m 0); [lia|].
  unfold relative, length. destruct (Z.ltb_spec m 0); lia.
Qed.

(** X1: with [maxChips] absent or at least 1, every chip is either shown or
    counted as hidden: the number of visible labels and the hidden count
    add up to the number of chips. *)
Theorem shown_plus_hidden (chips : list Chip) (maxChips maxTextLength : number) :
  match maxChips with Some m => 1 <= m | None => True end ->
  length (visibleLabels (project chips maxChips maxTextLength))
  + hiddenCount (project chips maxChips maxTextLength)
  = length chips.
Proof.
  intros Hm. rewrite (@visibleLabels_length_capped chips maxChips maxTextLength Hm).
  unfold spec_visibleLength. destruct chips as [|c cs].
  - rewrite project_nil. simpl hiddenCount. unfold length. simpl.
    destruct maxChips as [m|]; simpl; lia.
  - rewrite project_hiddenCount_cons. unfold exceeding, Math_max. lia.
Qed.

Lemma shown_plus_hidden_witness :
  1 <= 3
  /\ length (visibleLabels (project initialSample (Some 3) (Some 10)))
     + hiddenCount (project initialSample (Some 3) (Some 10))
     = length initialSample.
Proof.
  split; [lia|].
  apply (@shown_plus_hidden initialSample (Some 3) (Some 10)). simpl. lia.
Defined.

(** X2: with [maxTextLength = m], [m] at least 1, no visible label is
    longer than [m + 1] code units. *)
Theorem visibleLabels_width (chips : list Chip) (maxChips : number) (m : Z) :
  1 <= m ->
  Forall (fun out => length out <= m + 1)
    (visibleLabels (project chips maxChips (Some m))).
Proof.
  intros Hm. rewrite project_visibleLabels, visibleChips_prefix.
  apply Forall_map, Forall_forall. intros chip _.
  assert (Hok : limit_ok (Some m)) by (simpl; lia).
  pose proof (@displayLabel_law (Some m) chip Hok) as Hlaw.
  unfold truncation_law in Hlaw.
  destruct (Z.eqb_spec m 0); [lia|]. simpl in Hlaw.
  destruct (Z.leb_spec (length (label chip)) m) as [Hle|Hgt].
  - rewrite Hlaw. lia.
  - destruct Hlaw as (_ & Hlen & _). lia.
Qed.

Lemma visibleLabels_width_witness :
  1 <= 10
  /\ Forall (fun out => length out <= 10 + 1)
       (visibleLabels (project initialSample (Some 3) (Some 10))).
Proof.
  split; [lia|]. apply (@visibleLabels_width initialSample (Some 3) 10). lia.
Defined.

Lemma displayLabel_fits (maxTextLength : number) (chip : Chip) :
  match maxTextLength with
  | Some m => length (label chip) <= m
  | None => True
  end ->
  displayLabel maxTextLength chip = label chip.
Proof.
  unfold displayLabel, truthy, le. destruct maxTextLength as [m|]; [|reflexivity].
  intros Hle. destruct (Z.leb_spec (length (label chip)) m); [|lia].
  rewrite orb_true_r. reflexivity.
Qed.

(** X3: when the list is not longer than [maxChips] and no label is longer
    than [maxTextLength] (each limit may be absent), the projection is the
    list of labels as they are, with nothing hidden. *)
Theorem project_everything_fits (chips : list Chip) (maxChips maxTextLength : number) :
  match maxChips with Some m => length chips <= m | None => True end ->
  match maxTextLength with
  | Some m => Forall (fun chip => length (label chip) <= m) chips
  | None => True
  end ->
  project chips maxChips maxTextLength = mkResult (map label chips) 0.
Proof.
  intros Hc Hl. destruct chips as [|c cs]; [reflexivity|].
  rewrite project_eta, project_hiddenCount_cons, visibleChips_prefix.
  pose proof (length_cons_nonzero c cs) as Hnz. apply Z.eqb_neq in Hnz.
  pose proof (length_nonneg (c :: cs)) as Hpos.
  f_equal.
  - replace (taken (c :: cs) maxChips) with (List.length (c :: cs)).
    + rewrite firstn_all. apply map_ext_in. intros chip Hin.
      apply displayLabel_fits. destruct maxTextLength as [m|]; [|exact I].
      rewrite Forall_forall in Hl. apply Hl. exact Hin.
    + destruct maxChips as [m|]; [|reflexivity].
      rewrite taken_capped by lia. unfold length in Hc. lia.
  - unfold exceeding, Math_max, nullish. destruct maxChips as [m|]; lia.
Qed.

Lemma project_everything_fits_witness :
  length initialSample <= 5
  /\ Forall (fun chip => length (label chip) <= 23) initialSample
  /\ project initialSample (Some 5) (Some 23)
     = mkResult (map label initialSample) 0.
Proof.
  assert (H1 : length initialSample <= 5) by (vm_compute; discriminate).
  assert (H2 : Forall (fun chip => length (label chip) <= 23) initialSample).
  { repeat constructor; vm_compute; discriminate. }
  split; [exact H1|]. split; [exact H2|].
  exact (@project_everything_fits initialSample (Some 5) (Some 23) H1 H2).
Defined.

(** X4: raising [maxChips] only adds labels at the end: for
    [1 <= m <= m'], the labels visible under [m] are the first [m] of those
    visible under [m']. *)
Theorem visibleLabels_grow (chips : list Chip) (m m' : Z) (maxTextLength : number) :
  1 <= m -> m <= m' ->
  visibleLabels (project chips (Some m) maxTextLength)
  = firstn (Z.to_nat m) (visibleLabels (project chips (Some m') maxTextLength)).
Proof.
  intros Hm Hm'. rewrite !project_visibleLabels, !visibleChips_prefix.
  rewrite !taken_capped by lia. rewrite firstn_map, firstn_firstn.
  f_equal.
  replace (Nat.min (Z.to_nat m) (Nat.min (Z.to_nat m') (List.length chips)))
    with (Nat.min (Z.to_nat m) (List.length chips)) by lia.
  reflexivity.
Qed.

Lemma visibleLabels_grow_witness :
  1 <= 2 /\ 2 <= 4
  /\ visibleLabels (project initialSample (Some 2) (Some 10))
     = firstn (Z.to_nat 2) (visibleLabels (project initialSample (Some 4) (Some 10))).
Proof.
  split; [lia|]. split; [lia|].
  apply (@visibleLabels_grow initialSample 2 4 (Some 10)); lia.
Defined.

(** X5: on a non-empty list, for every [maxChips] whose distance below the
    length is at most 2^53 (where the subtraction of the code is exact),
    the "N more items" aside is rendered exactly when [maxChips] is given
    and below the number of chips, and N is the difference. *)
Theorem aside_when_over_cap (themeClass : string) (c : Chip) (cs : list Chip)
    (maxChips maxTextLength : number) :
  exactDifference (c :: cs) maxChips ->
  view themeClass (c :: cs) maxChips maxTextLength
  = ChipSection themeClass (visibleChips (c :: cs) maxChips maxTextLength)
      (match maxChips with
       | Some m => if m <? length (c :: cs) then Some (length (c :: cs) - m) else None
       | None => None
       end).
Proof.
  intros _. unfold view, returned. rewrite length_cons_nonzero. f_equal.
  unfold exceeding, Math_max, nullish. destruct maxChips as [m|].
  - destruct (Z.ltb_spec m (length (c :: cs))) as [Hlt|Hge].
    + replace (Z.max (length (c :: cs) - m) 0) with (length (c :: cs) - m) by lia.
      destruct (Z.gtb_spec (length (c :: cs) - m) 0); [reflexivity | lia].
    + replace (Z.max (length (c :: cs) - m) 0) with 0 by lia. reflexivity.
  - rewrite Z.sub_diag. reflexivity.
Qed.

Lemma aside_when_over_cap_witness :
  exactDifference initialSample (Some 3)
  /\ view "dark" initialSample (Some 3) (Some 10)
     = ChipSection "dark" (visibleChips initialSample (Some 3) (Some 10))
         (if 3 <? length initialSample
          then Some (length initialSample - 3) else None).
Proof.
  assert (He : exactDifference initialSample (Some 3))
    by (vm_compute; discriminate).
  split; [exact He|].
  exact (@aside_when_over_cap "dark"%string (mkChip (lit "ReactJS"))
           (tl initialSample) (Some 3) (Some 10) He).
Defined.

(** Chips past the cap do not reach the visible labels. *)
Lemma project_app_beyond_cap (chips extra : list Chip) (m : Z)
    (maxTextLength : number) :
  1 <= m -> m <= length chips ->
  visibleLabels (project (chips ++ extra) (Some m) maxTextLength)
  = visibleLabels (project chips (Some m) maxTextLength)
  /\ hiddenCount (project (chips ++ extra) (Some m) maxTextLength)
     = hiddenCount (project chips (Some m) maxTextLength) + length extra.
Proof.
  intros Hm Hlen. split.
  - rewrite !project_visibleLabels, !visibleChips_prefix, !taken_capped by lia.
    f_equal. rewrite length_app. unfold length in Hlen.
    replace (Nat.min (Z.to_nat m) (List.length chips + List.length extra))
      with (Z.to_nat m) by lia.
    replace (Nat.min (Z.to_nat m) (List.length chips)) with (Z.to_nat m) by lia.
    rewrite firstn_app.
    replace (Z.to_nat m - List.length chips)%nat with O by lia.
    rewrite firstn_O, app_nil_r. reflexivity.
  - destruct chips as [|c cs]; [unfold length in Hlen; simpl in Hlen; lia|].
    simpl app. rewrite !project_hiddenCount_cons.
    unfold exceeding, Math_max, nullish.
    change (c :: cs ++ extra) with ((c :: cs) ++ extra).
    unfold length in *. rewrite length_app. lia.
Qed.

(** X6: inserting a chip into a list that already fills the cap leaves the
    visible labels as they are and raises the hidden count by one. *)
Theorem addChip_beyond_cap (existing : list Chip) (candidateText : jsstring)
    (m : Z) (maxTextLength : number) :
  1 <= m -> m <= length existing ->
  addChip existing candidateText <> existing ->
  visibleLabels (project (addChip existing candidateText) (Some m) maxTextLength)
  = visibleLabels (project existing (Some m) maxTextLength)
  /\ hiddenCount (project (addChip existing candidateText) (Some m) maxTextLength)
     = hiddenCount (project existing (Some m) maxTextLength) + 1.
Proof.
  intros Hm Hlen Hnew.
  destruct (addChip_cases existing candidateText) as [[_ Heq]|(_ & _ & ->)];
    [contradiction|].
  apply (@project_app_beyond_cap existing [mkChip (trim candidateText)] m
           maxTextLength Hm Hlen).
Qed.

Lemma addChip_beyond_cap_witness :
  1 <= 3 /\ 3 <= length initialSample
  /\ addChip initialSample (lit " Rocq ") <> initialSample
  /\ visibleLabels (project (addChip initialSample (lit " Rocq ")) (Some 3) (Some 10))
     = visibleLabels (project initialSample (Some 3) (Some 10))
  /\ hiddenCount (project (addChip initialSample (lit " Rocq ")) (Some 3) (Some 10))
     = hiddenCount (project initialSample (Some 3) (Some 10)) + 1.
Proof.
  assert (H2 : 3 <= length initialSample) by (vm_compute; discriminate).
  assert (H3 : addChip initialSample (lit " Rocq ") <> initialSample)
    by (vm_compute; discriminate).
  split; [lia|]. split; [exact H2|]. split; [exact H3|].
  apply (@addChip_beyond_cap initialSample (lit " Rocq ") 3 (Some 10));
    [lia | exact H2 | exact H3].
Defined.

(* ===================================================================== *)
(** ** More on insertion *)
(* ===================================================================== *)

(** X7: inserting the same text a second time changes nothing. *)
Theorem addChip_twice (existing : list Chip) (candidateText : jsstring) :
  addChip (addChip existing candidateText) candidateText
  = addChip existing candidateText.
Proof.
  destruct (addChip_cases existing candidateText) as [[_ Heq]|(_ & _ & Heq)].
  - rewrite Heq. exact Heq.
  - rewrite Heq.
    destruct (addChip_cases (existing ++ [mkChip (trim candidateText)]) candidateText)
      as [[_ Hsame]|(_ & Hall & _)]; [exact Hsame|].
    rewrite Forall_forall in Hall.
    exfalso. apply (Hall (mkChip (trim candidateText))); [|reflexivity].
    apply in_or_app. right. left. reflexivity.
Qed.

(** X8: insertion keeps the labels pairwise different. *)
Theorem addChip_keeps_labels_distinct (existing : list Chip)
    (candidateText : jsstring) :
  NoDup (map label existing) ->
  NoDup (map label (addChip existing candidateText)).
Proof. apply addChip_NoDup. Qed.

Lemma addChip_keeps_labels_distinct_witness :
  NoDup (map label [mkChip (lit "A")])
  /\ NoDup (map label (addChip [mkChip (lit "A")] (lit " B "))).
Proof.
  assert (H : NoDup (map label [mkChip (lit "A")])).
  { constructor; [intros [] | constructor]. }
  split; [exact H|].
  exact (@addChip_keeps_labels_distinct [mkChip (lit "A")] (lit " B ") H).
Defined.

Lemma trim_tidy (s : jsstring) : trim s <> [] -> tidy (trim s).
Proof.
  intros Hne. destruct (trim_spec s) as (_ & _ & _ & _ & _ & H).
  unfold tidy. destruct (trim s) as [|c t]; [contradiction | exact H].
Qed.

Lemma addChip_tidy (existing : list Chip) (candidateText : jsstring) :
  Forall (fun chip => tidy (label chip)) existing ->
  Forall (fun chip => tidy (label chip)) (addChip existing candidateText).
Proof.
  intros Hall.
  destruct (addChip_cases existing candidateText) as [[_ ->]|(Hne & _ & ->)];
    [exact Hall|].
  apply Forall_app. split; [exact Hall|].
  constructor; [|constructor]. simpl. apply trim_tidy. exact Hne.
Qed.

(** X9: a label that comes in through insertion is not empty and has no
    white space at its start or end; so if that holds of every label
    before an insertion, it holds after. *)
Theorem addChip_keeps_labels_tidy (existing : list Chip) (candidateText : jsstring) :
  Forall (fun chip => tidy (label chip)) existing ->
  Forall (fun chip => tidy (label chip)) (addChip existing candidateText).
Proof. apply addChip_tidy. Qed.

Lemma initialSample_tidy : Forall (fun chip => tidy (label chip)) initialSample.
Proof. repeat constructor. Qed.

Lemma addChip_keeps_labels_tidy_witness :
  Forall (fun chip => tidy (label chip)) initialSample
  /\ Forall (fun chip => tidy (label chip)) (addChip initialSample (lit "  Rocq  ")).
Proof.
  split; [exact initialSample_tidy|].
  exact (@addChip_keeps_labels_tidy initialSample (lit "  Rocq  ")
           initialSample_tidy).
Defined.

Lemma handleAddChip_accepts (s : App.State) :
  App.handleAddChip s
  = if Demo.accepts s
    then App.mkState (App.counter s)
           (App.chips s ++ [mkChip (trim (App.inputValue s))]) []
    else s.
Proof. reflexivity. Qed.

(** X10: a second click right after a click does nothing: after an
    insertion the input field is empty, and a click that inserted nothing
    left the state as it was. *)
Theorem handleAddChip_twice (s : App.State) :
  App.handleAddChip (App.handleAddChip s) = App.handleAddChip s.
Proof.
  rewrite (handleAddChip_accepts s).
  destruct (Demo.accepts s) eqn:Hacc.
  - reflexivity.
  - rewrite handleAddChip_accepts, Hacc. reflexivity.
Qed.

(** X11: the interval and the insertion do not interfere: they commute,
    and a tick leaves the props of the children as they are. *)
Theorem tick_handleAddChip (s : App.State) (theme : option string) :
  App.tick (App.handleAddChip s) = App.handleAddChip (App.tick s)
  /\ App.childProps (App.tick s) theme = App.childProps s theme.
Proof.
  split; [|reflexivity].
  rewrite !handleAddChip_accepts.
  change (Demo.accepts (App.tick s)) with (Demo.accepts s).
  destruct (Demo.accepts s); reflexivity.
Qed.

(* ===================================================================== *)
(** ** What a run leaves behind *)
(* ===================================================================== *)

Module Runs.

Import Hooks.
Import MonadNotation.
Local Open Scope monad_scope.

Lemma mountedLines_app (a b : list LogLine) :
  mountedLines (a ++ b) = (mountedLines a + mountedLines b)%nat.
Proof.
  induction a as [|l a IH]; [reflexivity|].
  destruct l; simpl; rewrite IH; reflexivity.
Qed.

Lemma number_is_refl (n : number) : number_is n n = true.
Proof. destruct n as [z|]; simpl; [apply Z.eqb_refl | reflexivity]. Qed.

Lemma string_is_refl (s : option string) : string_is s s = true.
Proof. destruct s as [x|]; simpl; [apply String.eqb_refl | reflexivity]. Qed.

Lemma propsUnchanged_refl (p : ChipListProps) : propsUnchanged true p p = true.
Proof.
  unfold propsUnchanged. rewrite !number_is_refl, string_is_refl. reflexivity.
Qed.

Lemma props_eq (p q : ChipListProps) :
  chips p = chips q -> maxChips p = maxChips q ->
  maxTextLength p = maxTextLength q -> theme p = theme q -> p = q.
Proof. destruct p, q. simpl. intros -> -> -> ->. reflexivity. Qed.

(** X12: the plain [ChipList] runs on every render, whatever the props and
    whatever its cells hold: each render raises the [renderCount] of its
    file by exactly one. *)
Theorem ChipList_counts_every_render (env : Env) (p : ChipListProps) (w : World) :
  renderCount (execState (ChipList env p) w) = renderCount w + 1.
Proof. apply HooksFacts.render_renderCount. Qed.

(** X13: the mount effect runs once: a run writes one "mounted" line when
    the component has not been mounted and none afterwards, and after any
    run the component counts as mounted. *)
Theorem mounted_logged_once (name : string) (themed : bool) (env : Env)
    (p : ChipListProps) (w : World) :
  mountedLines (console (execState (render name themed env p) w))
  = (mountedLines (console w)
     + if mountEffectRan (fiber w) then 0 else 1)%nat
  /\ mountEffectRan (fiber (execState (render name themed env p) w)) = true.
Proof.
  unfold execState, render, body, renderEffect, mountEffect, useState, useMemo,
    useRef_mountCount, useRef_lastRenderTime.
  destruct w as [count lines [vc me mo la ran co]].
  destruct themed, vc, me as [[d v]|], mo, la, ran; cbn;
    try destruct (depsUnchanged (sameChips env) d
                    (chips p, maxChips p, maxTextLength p));
    cbn; rewrite ?mountedLines_app; simpl; split; try reflexivity; lia.
Qed.

(** X14: [visibleCount] is set by the first run, to
    min(length, maxChips ?? length) of the props of that run, and no later
    run changes it, whatever props it gets. *)
Theorem visibleCount_frozen (name : string) (themed : bool) (env : Env)
    (p : ChipListProps) (w : World) :
  visibleCount (fiber (execState (render name themed env p) w))
  = Some (match visibleCount (fiber w) with
          | Some v => v
          | None => Z.min (length (chips p))
                      (nullish (maxChips p) (length (chips p)))
          end).
Proof.
  unfold execState, render, body, renderEffect, mountEffect, useState, useMemo,
    useRef_mountCount, useRef_lastRenderTime.
  destruct w as [count lines [vc me mo la ran co]].
  destruct themed, vc, me as [[d v]|], mo, la, ran; cbn;
    try destruct (depsUnchanged (sameChips env) d
                    (chips p, maxChips p, maxTextLength p));
    reflexivity.
Qed.

Section Wrapped.

Variable name : string.
Variable themed : bool.
Variable env : Env.
Variable p : ChipListProps.
Variable w : World.
Hypothesis Henv : env_ok env w (chips p).

(** After a render under [React.memo] the kept props are the current
    ones. *)
Lemma React_memo_keeps :
  committed (fiber (execState (React_memo (render name themed) env p) w))
  = Some (p, evalState (React_memo (render name themed) env p) w).
Proof.
  unfold evalState, execState, React_memo.
  cbn [bind Monad_state runState get MonadState_state].
  unfold env_ok in Henv.
  destruct (committed (fiber w)) as [[old e]|] eqn:Hold.
  - destruct (propsUnchanged (sameChips env) old p) eqn:Hsame.
    + apply HooksFacts.propsUnchanged_eq in Hsame.
      destruct Hsame as (Hs & Hmc & Hmtl & Hth).
      destruct (Henv Hs) as [_ Hchips].
      cbn. rewrite Hold. rewrite (@props_eq old p Hchips Hmc Hmtl Hth). reflexivity.
    + cbn -[render]. destruct (runState (render name themed env p) w). reflexivity.
  - cbn -[render]. destruct (runState (render name themed env p) w). reflexivity.
Qed.

(** Rendering again with the same props and the same array: nothing
    runs. *)
Lemma React_memo_again (env' : Env) :
  sameChips env' = true ->
  runState (React_memo (render name themed) env' p)
    (execState (React_memo (render name themed) env p) w)
  = (evalState (React_memo (render name themed) env p) w,
     execState (React_memo (render name themed) env p) w).
Proof.
  intros Hsame. pose proof React_memo_keeps as Hk.
  set (w1 := execState (React_memo (render name themed) env p) w) in *.
  set (e1 := evalState (React_memo (render name themed) env p) w) in *.
  unfold React_memo. cbn [bind Monad_state runState get MonadState_state].
  rewrite Hk, Hsame, propsUnchanged_refl. reflexivity.
Qed.

End Wrapped.

End Runs.

(** With a new array the wrapper always calls the function. *)
Lemma React_memo_new_array
    (component : Hooks.Env -> ChipListProps -> state Hooks.World Element)
    (env : Hooks.Env) (p : ChipListProps) (w : Hooks.World) :
  Hooks.sameChips env = false ->
  runState (Hooks.React_memo component env p) w
  = (fst (runState (component env p) w),
     Hooks.withFiber
       (Hooks.setCommitted p (fst (runState (component env p) w)))
       (snd (runState (component env p) w))).
Proof.
  intros Hnew. unfold Hooks.React_memo.
  cbn [bind Monad_state runState get MonadState_state].
  assert (Hrun :
    forall r : Element * Hooks.World,
      (let (v, s) := r in
       let (_, s0) := runState (modify (Hooks.withFiber (Hooks.setCommitted p v))) s in
       runState (ret v) s0)
      = (fst r, Hooks.withFiber (Hooks.setCommitted p (fst r)) (snd r)))
    by (intros [v s]; reflexivity).
  destruct (Hooks.committed (Hooks.fiber w)) as [[old e]|].
  - unfold Hooks.propsUnchanged. rewrite Hnew. cbn [andb]. apply Hrun.
  - apply Hrun.
Qed.

(** X15: what [React.memo] saves depends on the identity of the [chips]
    array: when [ChipListMemo] or [ChipListCusto] is rendered again with
    the props of the previous render but a new array holding the same
    chips, the function runs again, raising the [renderCount] of its file
    by one, and returns the element it returned before. *)
Theorem wrapped_reruns_on_new_array (name : string) (themed : bool)
    (env env' : Hooks.Env) (p : ChipListProps) (w : Hooks.World) :
  Hooks.reachable (Hooks.React_memo (Hooks.render name themed)) w ->
  Hooks.env_ok env w (chips p) ->
  Hooks.sameChips env' = false ->
  evalState (Hooks.React_memo (Hooks.render name themed) env' p)
    (execState (Hooks.React_memo (Hooks.render name themed) env p) w)
  = evalState (Hooks.React_memo (Hooks.render name themed) env p) w
  /\ Hooks.renderCount
       (execState (Hooks.React_memo (Hooks.render name themed) env' p)
          (execState (Hooks.React_memo (Hooks.render name themed) env p) w))
     = Hooks.renderCount
         (execState (Hooks.React_memo (Hooks.render name themed) env p) w) + 1.
Proof.
  intros Hreach Henv Hnew.
  destruct (HooksFacts.reachable_React_memo_ok Hreach) as [Hm Hc].
  destruct (@HooksFacts.React_memo_run name themed env p w Hm Henv Hc)
    as (He1 & Hm1 & _).
  set (w1 := execState (Hooks.React_memo (Hooks.render name themed) env p) w) in *.
  assert (Henv' : Hooks.env_ok env' w1 (chips p))
    by (intros H; rewrite Hnew in H; discriminate H).
  destruct (@HooksFacts.render_run name themed env' p w1 Hm1 Henv') as (He2 & _).
  pose proof (HooksFacts.render_renderCount name themed env' p w1) as Hcount.
  rewrite He1. unfold evalState, execState in *.
  rewrite (@React_memo_new_array (Hooks.render name themed) env' p w1 Hnew).
  cbn [fst snd]. split; [exact He2 | exact Hcount].
Qed.

Lemma wrapped_reruns_on_new_array_witness :
  Hooks.reachable (Hooks.React_memo (Hooks.render "ChipListMemo" false))
    (Hooks.mkWorld 0 [] Hooks.unmounted)
  /\ evalState
       (Hooks.React_memo (Hooks.render "ChipListMemo" false)
          (Hooks.mkEnv 5 6 false) (mkProps initialSample (Some 3) (Some 10) None))
       (execState
          (Hooks.React_memo (Hooks.render "ChipListMemo" false)
             (Hooks.mkEnv 0 1 false) (mkProps initialSample (Some 3) (Some 10) None))
          (Hooks.mkWorld 0 [] Hooks.unmounted))
     = evalState
         (Hooks.React_memo (Hooks.render "ChipListMemo" false)
            (Hooks.mkEnv 0 1 false) (mkProps initialSample (Some 3) (Some 10) None))
         (Hooks.mkWorld 0 [] Hooks.unmounted)
  /\ Hooks.renderCount
       (execState
          (Hooks.React_memo (Hooks.render "ChipListMemo" false)
             (Hooks.mkEnv 5 6 false) (mkProps initialSample (Some 3) (Some 10) None))
          (execState
             (Hooks.React_memo (Hooks.render "ChipListMemo" false)
                (Hooks.mkEnv 0 1 false)
                (mkProps initialSample (Some 3) (Some 10) None))
             (Hooks.mkWorld 0 [] Hooks.unmounted)))
     = Hooks.renderCount
         (execState
            (Hooks.React_memo (Hooks.render "ChipListMemo" false)
               (Hooks.mkEnv 0 1 false)
               (mkProps initialSample (Some 3) (Some 10) None))
            (Hooks.mkWorld 0 [] Hooks.unmounted)) + 1.
Proof.
  assert (H : Hooks.reachable (Hooks.React_memo (Hooks.render "ChipListMemo" false))
                (Hooks.mkWorld 0 [] Hooks.unmounted))
    by apply Hooks.reachable_unmounted.
  split; [exact H|].
  apply (@wrapped_reruns_on_new_array "ChipListMemo" false (Hooks.mkEnv 0 1 false)
           (Hooks.mkEnv 5 6 false) (mkProps initialSample (Some 3) (Some 10) None)
           (Hooks.mkWorld 0 [] Hooks.unmounted) H).
  - intros _. split; exact I.
  - reflexivity.
Defined.

(** X16: [ChipListCusto] without a theme shows the element it shows with
    the theme "light". *)
Theorem ChipListCusto_default_theme (env : Hooks.Env) (chips : list Chip)
    (maxChips maxTextLength : number) (w : Hooks.World) :
  Hooks.reachable Hooks.ChipListCusto w ->
  Hooks.env_ok env w chips ->
  evalState (Hooks.ChipListCusto env (mkProps chips maxChips maxTextLength None)) w
  = evalState
      (Hooks.ChipListCusto env
         (mkProps chips maxChips maxTextLength (Some "light"%string))) w.
Proof.
  intros Hreach Henv. unfold Hooks.ChipListCusto in *.
  destruct (HooksFacts.reachable_React_memo_ok Hreach) as [Hm Hc].
  destruct (@HooksFacts.React_memo_run "ChipListCusto" true env
              (mkProps chips maxChips maxTextLength None) w Hm Henv Hc) as [-> _].
  destruct (@HooksFacts.React_memo_run "ChipListCusto" true env
              (mkProps chips maxChips maxTextLength (Some "light"%string)) w
              Hm Henv Hc) as [-> _].
  reflexivity.
Qed.

Lemma ChipListCusto_default_theme_witness :
  Hooks.reachable Hooks.ChipListCusto (Hooks.mkWorld 0 [] Hooks.unmounted)
  /\ evalState
       (Hooks.ChipListCusto (Hooks.mkEnv 0 1 false)
          (mkProps initialSample (Some 3) (Some 10) None))
       (Hooks.mkWorld 0 [] Hooks.unmounted)
     = evalState
         (Hooks.ChipListCusto (Hooks.mkEnv 0 1 false)
            (mkProps initialSample (Some 3) (Some 10) (Some "light"%string)))
         (Hooks.mkWorld 0 [] Hooks.unmounted).
Proof.
  assert (H : Hooks.reachable Hooks.ChipListCusto
                (Hooks.mkWorld 0 [] Hooks.unmounted))
    by apply Hooks.reachable_unmounted.
  split; [exact H|].
  apply (@ChipListCusto_default_theme (Hooks.mkEnv 0 1 false) initialSample
           (Some 3) (Some 10) (Hooks.mkWorld 0 [] Hooks.unmounted) H).
  intros _. split; exact I.
Defined.

(* ===================================================================== *)
(** ** [App] and its children over time *)
(* ===================================================================== *)

Module DemoFacts.

Import Hooks.
Import Demo.
Import MonadNotation.
Local Open Scope monad_scope.

(** A run of the function on a component that has not rendered yet. *)
Lemma render_unmounted (name : string) (themed : bool) (env : Env)
    (p : ChipListProps) (count : Z) (lines : list LogLine) :
  fst (runState (render name themed env p) (mkWorld count lines unmounted))
  = view (themeClass themed p) (chips p) (maxChips p) (maxTextLength p)
  /\ settled p None
       (fiber (snd (runState (render name themed env p)
                      (mkWorld count lines unmounted))))
  /\ renderCount (snd (runState (render name themed env p)
                         (mkWorld count lines unmounted)))
     = count + 1.
Proof.
  unfold render, body, renderEffect, mountEffect, useState, useMemo,
    useRef_mountCount, useRef_lastRenderTime, settled.
  destruct themed; cbn; (split; [reflexivity|]); (split; [|reflexivity]);
    eexists _, _, _; reflexivity.
Qed.

(** A run on a component settled on [q]: it settles on [p]; when the
    dependencies are the old ones the cells stay as they are. *)
Lemma render_settled (name : string) (themed : bool) (env : Env)
    (p q : ChipListProps) (kept : option (ChipListProps * Element)) (w : World) :
  settled q kept (fiber w) ->
  (sameChips env = true -> q = p) ->
  fst (runState (render name themed env p) w)
  = view (themeClass themed p) (chips p) (maxChips p) (maxTextLength p)
  /\ settled p kept (fiber (snd (runState (render name themed env p) w)))
  /\ renderCount (snd (runState (render name themed env p) w)) = renderCount w + 1
  /\ (sameChips env = true ->
      fiber (snd (runState (render name themed env p) w)) = fiber w).
Proof.
  intros (vc & m & t0 & Hf) Hq.
  destruct w as [count lines f]. simpl in Hf. subst f.
  unfold render, body, renderEffect, mountEffect, useState, useMemo,
    useRef_mountCount, useRef_lastRenderTime, settled.
  destruct (sameChips env) eqn:Hs.
  - rewrite <- (Hq eq_refl). clear Hq.
    destruct themed; cbn -[depsUnchanged];
      unfold depsUnchanged; rewrite !Runs.number_is_refl; cbn;
      (split; [reflexivity|]); (split; [eexists _, _, _; reflexivity|]);
      split; reflexivity.
  - destruct themed; cbn;
      (split; [reflexivity|]); (split; [eexists _, _, _; reflexivity|]);
      (split; [reflexivity|]); intros H; discriminate H.
Qed.

(** The same under [React.memo], when the function has to run. *)
Lemma React_memo_runs (name : string) (themed : bool) (env : Env)
    (p : ChipListProps) (w : World)
    (r := runState (React_memo (render name themed) env p) w) :
  sameChips env = false ->
  fiber w = unmounted \/ (exists q kept, settled q kept (fiber w)) ->
  fst r = view (themeClass themed p) (chips p) (maxChips p) (maxTextLength p)
  /\ settled p (Some (p, view (themeClass themed p) (chips p) (maxChips p)
                           (maxTextLength p)))
       (fiber (snd r))
  /\ renderCount (snd r) = renderCount w + 1.
Proof.
  intros Hs Hw. subst r.
  assert (Hrun :
    fst (runState (render name themed env p) w)
    = view (themeClass themed p) (chips p) (maxChips p) (maxTextLength p)
    /\ (exists kept, settled p kept (fiber (snd (runState (render name themed env p) w))))
    /\ renderCount (snd (runState (render name themed env p) w)) = renderCount w + 1).
  { destruct Hw as [Hu|(q & kept & Hq)].
    - destruct w as [count lines f]. simpl in Hu. subst f.
      destruct (render_unmounted name themed env p count lines) as (H1 & H2 & H3).
      split; [exact H1|]. split; [exists None; exact H2 | exact H3].
    - assert (Hno : sameChips env = true -> q = p)
        by (rewrite Hs; intros H; discriminate H).
      destruct (@render_settled name themed env p q kept w Hq Hno)
        as (H1 & H2 & H3 & _).
      split; [exact H1|]. split; [exists kept; exact H2 | exact H3]. }
  destruct Hrun as (H1 & (kept & vc & m & t0 & H2) & H3).
  unfold React_memo. cbn [bind Monad_state runState get MonadState_state].
  assert (Hgo :
    forall run, run = runState (e <- render name themed env p ;;
                                modify (withFiber (setCommitted p e)) ;; ret e) w ->
      fst run = view (themeClass themed p) (chips p) (maxChips p) (maxTextLength p)
      /\ settled p (Some (p, view (themeClass themed p) (chips p) (maxChips p)
                               (maxTextLength p))) (fiber (snd run))
      /\ renderCount (snd run) = renderCount w + 1).
  { intros run ->. cbn -[render].
    destruct (runState (render name themed env p) w) as [e w'].
    simpl in H1, H2, H3. cbn. subst e. rewrite H2. cbn.
    split; [reflexivity|]. split; [|exact H3].
    eexists _, _, _. reflexivity. }
  destruct (committed (fiber w)) as [[old e]|].
  - unfold propsUnchanged. rewrite Hs. cbn [andb]. apply Hgo. reflexivity.
  - apply Hgo. reflexivity.
Qed.

(** Under [React.memo], with the kept props and the same array, nothing
    runs. *)
Lemma React_memo_skips (name : string) (themed : bool) (env : Env)
    (p : ChipListProps) (e : Element) (w : World) :
  sameChips env = true ->
  settled p (Some (p, e)) (fiber w) ->
  runState (React_memo (render name themed) env p) w = (e, w).
Proof.
  intros Hs (vc & m & t0 & Hf).
  unfold React_memo. cbn [bind Monad_state runState get MonadState_state].
  rewrite Hf. cbn [committed]. rewrite Hs, Runs.propsUnchanged_refl. reflexivity.
Qed.

Lemma childProps_chips (s s' : App.State) (th : option string) :
  App.chips s' = App.chips s -> App.childProps s' th = App.childProps s th.
Proof. unfold App.childProps. intros ->. reflexivity. Qed.

(** A pass with a new [chips] array: every child runs. *)
Lemma renderChildren_new (c : Clocks) (s : App.State) (w1 w2 w3 : World) :
  fiber w1 = unmounted \/ (exists q, settled q None (fiber w1)) ->
  fiber w2 = unmounted \/ (exists q kept, settled q kept (fiber w2)) ->
  fiber w3 = unmounted \/ (exists q kept, settled q kept (fiber w3)) ->
  consistent (renderChildren false c s w1 w2 w3)
  /\ renderCount (listWorld (renderChildren false c s w1 w2 w3)) = renderCount w1 + 1
  /\ renderCount (memoWorld (renderChildren false c s w1 w2 w3)) = renderCount w2 + 1
  /\ renderCount (custoWorld (renderChildren false c s w1 w2 w3)) = renderCount w3 + 1.
Proof.
  intros H1 H2 H3. unfold renderChildren, consistent. cbn [appState listWorld
    memoWorld custoWorld listShown memoShown custoShown].
  assert (Hplain :
    fst (runState (ChipList (envOf false (forList c)) (App.childProps s None)) w1)
    = view "light" (App.chips s) (Some 3) (Some 10)
    /\ settled (App.childProps s None) None
         (fiber (snd (runState (ChipList (envOf false (forList c))
                                  (App.childProps s None)) w1)))
    /\ renderCount (snd (runState (ChipList (envOf false (forList c))
                                     (App.childProps s None)) w1))
       = renderCount w1 + 1).
  { unfold ChipList. destruct H1 as [Hu|(q & Hq)].
    - destruct w1 as [count lines f]. simpl in Hu. subst f.
      apply render_unmounted.
    - assert (Hno : sameChips (envOf false (forList c)) = true
                    -> q = App.childProps s None)
        by (intros H; discriminate H).
      destruct (@render_settled "ChipList" false (envOf false (forList c))
                  (App.childProps s None) q None w1 Hq Hno) as (A & B & C & _).
      split; [exact A|]. split; [exact B | exact C]. }
  destruct Hplain as (A1 & B1 & C1).
  destruct (@React_memo_runs "ChipListMemo" false (envOf false (forMemo c))
              (App.childProps s None) w2 eq_refl H2) as (A2 & B2 & C2).
  destruct (@React_memo_runs "ChipListCusto" true (envOf false (forCusto c))
              (App.childProps s (Some "dark"%string)) w3 eq_refl H3)
    as (A3 & B3 & C3).
  repeat split; assumption.
Qed.

(** A pass with the [chips] array of the pass before: the wrapped children
    do not run, the plain one does. *)
Lemma renderChildren_same (c : Clocks) (s : App.State) (t : Tree) :
  consistent t ->
  App.chips s = App.chips (appState t) ->
  consistent (renderChildren true c s (listWorld t) (memoWorld t) (custoWorld t))
  /\ memoWorld (renderChildren true c s (listWorld t) (memoWorld t) (custoWorld t))
     = memoWorld t
  /\ custoWorld (renderChildren true c s (listWorld t) (memoWorld t) (custoWorld t))
     = custoWorld t
  /\ renderCount
       (listWorld (renderChildren true c s (listWorld t) (memoWorld t) (custoWorld t)))
     = renderCount (listWorld t) + 1
  /\ listShown (renderChildren true c s (listWorld t) (memoWorld t) (custoWorld t))
     = listShown t
  /\ memoShown (renderChildren true c s (listWorld t) (memoWorld t) (custoWorld t))
     = memoShown t
  /\ custoShown (renderChildren true c s (listWorld t) (memoWorld t) (custoWorld t))
     = custoShown t.
Proof.
  intros (S1 & S2 & S3 & E1 & E2 & E3) Hchips.
  unfold renderChildren, consistent. cbn [appState listWorld
    memoWorld custoWorld listShown memoShown custoShown].
  rewrite !(@childProps_chips (appState t) s _ Hchips).
  cbv zeta in S1, S2, S3, E1, E2, E3.
  destruct (@render_settled "ChipList" false (envOf true (forList c))
              (App.childProps (appState t) None) (App.childProps (appState t) None)
              None (listWorld t) S1 (fun _ => eq_refl)) as (A & B & C & _).
  fold ChipList in A, B, C.
  unfold ChipListMemo, ChipListCusto.
  rewrite (@React_memo_skips "ChipListMemo" false (envOf true (forMemo c))
             _ _ (memoWorld t) eq_refl S2).
  rewrite (@React_memo_skips "ChipListCusto" true (envOf true (forCusto c))
             _ _ (custoWorld t) eq_refl S3).
  cbn [fst snd].
  rewrite E1, E2, E3.
  repeat split; try assumption; try reflexivity.
Qed.

Lemma initialSample_NoDup : NoDup (map label initialSample).
Proof.
  repeat constructor; simpl; intros H;
    repeat (destruct H as [H|H]; [discriminate H|]); exact H.
Qed.

Lemma handleAddChip_chips_ok (s : App.State) :
  chips_ok s -> chips_ok (App.handleAddChip s).
Proof.
  intros (Hnd & Htidy & added & Hadd). unfold chips_ok.
  destruct (handleAddChip_chips s) as [-> _].
  split; [apply addChip_NoDup; exact Hnd|].
  split; [apply addChip_tidy; exact Htidy|].
  destruct (addChip_cases (App.chips s) (App.inputValue s))
    as [[_ ->]|(_ & _ & ->)].
  - exists added. exact Hadd.
  - exists (added ++ [mkChip (trim (App.inputValue s))]).
    rewrite Hadd, app_assoc. reflexivity.
Qed.

(** Every reachable tree is consistent, with the render counts and the
    labels in order. *)
Lemma reachable_invariants (t : Tree) :
  reachable t -> consistent t /\ counts_ok t /\ chips_ok (appState t).
Proof.
  induction 1 as [c | t ev c Hreach (Hcons & Hcount & Hchips)].
  - destruct (@renderChildren_new c initialState loaded loaded loaded
                (or_introl eq_refl) (or_introl eq_refl) (or_introl eq_refl))
      as (Hc & R1 & R2 & R3).
    split; [exact Hc|]. split.
    + unfold counts_ok, mount. rewrite R1, R2, R3. cbn. lia.
    + unfold mount, renderChildren. cbn [appState]. unfold chips_ok, initialState.
      cbn [App.chips]. split; [exact initialSample_NoDup|].
      split; [exact initialSample_tidy|]. exists []. rewrite app_nil_r. reflexivity.
  - destruct Hcount as (K1 & K2 & K3).
    destruct ev as [|value|]; cbn [step].
    + destruct (@renderChildren_same c (App.tick (appState t)) t Hcons eq_refl)
        as (Hc & M & Cu & L & _).
      split; [exact Hc|]. split.
      * unfold counts_ok. rewrite M, Cu, L.
        unfold renderChildren. cbn [appState App.tick App.chips App.counter].
        split; [exact K1|]. split; [exact K2 | lia].
      * exact Hchips.
    + destruct (strict_eq value (App.inputValue (appState t))).
      * split; [exact Hcons|]. split; [split; [exact K1|split; [exact K2|exact K3]]|].
        exact Hchips.
      * destruct (@renderChildren_same c (setInputValue value (appState t)) t
                    Hcons eq_refl) as (Hc & M & Cu & L & _).
        split; [exact Hc|]. split.
        -- unfold counts_ok. rewrite M, Cu, L.
           unfold renderChildren. cbn [appState setInputValue App.chips App.counter].
           split; [exact K1|]. split; [exact K2 | lia].
        -- exact Hchips.
    + destruct (accepts (appState t)) eqn:Hacc.
      * destruct Hcons as (S1 & S2 & S3 & _).
        assert (D1 : fiber (listWorld t) = unmounted
                     \/ (exists q, settled q None (fiber (listWorld t))))
          by (right; eexists; exact S1).
        assert (D2 : fiber (memoWorld t) = unmounted
                     \/ (exists q kept, settled q kept (fiber (memoWorld t))))
          by (right; eexists _, _; exact S2).
        assert (D3 : fiber (custoWorld t) = unmounted
                     \/ (exists q kept, settled q kept (fiber (custoWorld t))))
          by (right; eexists _, _; exact S3).
        destruct (@renderChildren_new c (App.handleAddChip (appState t))
                    (listWorld t) (memoWorld t) (custoWorld t) D1 D2 D3)
          as (Hc & R1 & R2 & R3).
        split; [exact Hc|]. split.
        -- unfold counts_ok. rewrite R1, R2, R3.
           unfold renderChildren. cbn [appState].
           rewrite handleAddChip_accepts, Hacc. cbn [App.chips App.counter].
           unfold length in *. rewrite length_app. cbn [List.length]. lia.
        -- unfold renderChildren. cbn [appState].
           apply handleAddChip_chips_ok. exact Hchips.
      * split; [exact Hcons|]. split; [split; [exact K1|split; [exact K2|exact K3]]|].
        exact Hchips.
Qed.

End DemoFacts.

Lemma sampleSession_reachable : Demo.reachable Demo.sampleSession.
Proof.
  unfold Demo.sampleSession.
  repeat apply Demo.reachable_step. apply Demo.reachable_mount.
Qed.

(** X17: at every moment the three children of [App] show the same labels
    and the same hidden count, those of the projection of the current chips
    under [maxChips = 3] and [maxTextLength = 10], although two of them
    skip renders. *)
Theorem children_agree (t : Demo.Tree) :
  Demo.reachable t ->
  observe (Demo.listShown t)
  = project (App.chips (Demo.appState t)) (Some 3) (Some 10)
  /\ observe (Demo.memoShown t)
     = project (App.chips (Demo.appState t)) (Some 3) (Some 10)
  /\ observe (Demo.custoShown t)
     = project (App.chips (Demo.appState t)) (Some 3) (Some 10).
Proof.
  intros Hreach.
  destruct (DemoFacts.reachable_invariants Hreach)
    as ((_ & _ & _ & E1 & E2 & E3) & _).
  rewrite E1, E2, E3. repeat split; apply observe_view.
Qed.

Lemma children_agree_witness :
  Demo.reachable Demo.sampleSession
  /\ observe (Demo.listShown Demo.sampleSession)
     = project (App.chips (Demo.appState Demo.sampleSession)) (Some 3) (Some 10)
  /\ observe (Demo.memoShown Demo.sampleSession)
     = project (App.chips (Demo.appState Demo.sampleSession)) (Some 3) (Some 10)
  /\ observe (Demo.custoShown Demo.sampleSession)
     = project (App.chips (Demo.appState Demo.sampleSession)) (Some 3) (Some 10).
Proof.
  split; [exact sampleSession_reachable|].
  exact (@children_agree Demo.sampleSession sampleSession_reachable).
Defined.

(** X18: when the interval fires, [ChipListMemo] and [ChipListCusto] do not
    run: their cells, render counts and consoles stay as they are, while
    the plain [ChipList] runs once more; all three go on showing what they
    showed.  Editing the input field does not make the wrapped two run
    either. *)
Theorem tick_spares_wrapped_children (t : Demo.Tree) (c : Demo.Clocks) :
  Demo.reachable t ->
  Demo.memoWorld (Demo.step Demo.Tick c t) = Demo.memoWorld t
  /\ Demo.custoWorld (Demo.step Demo.Tick c t) = Demo.custoWorld t
  /\ Hooks.renderCount (Demo.listWorld (Demo.step Demo.Tick c t))
     = Hooks.renderCount (Demo.listWorld t) + 1
  /\ Demo.listShown (Demo.step Demo.Tick c t) = Demo.listShown t
  /\ Demo.memoShown (Demo.step Demo.Tick c t) = Demo.memoShown t
  /\ Demo.custoShown (Demo.step Demo.Tick c t) = Demo.custoShown t
  /\ forall value : jsstring,
       Demo.memoWorld (Demo.step (Demo.Change value) c t) = Demo.memoWorld t
       /\ Demo.custoWorld (Demo.step (Demo.Change value) c t) = Demo.custoWorld t.
Proof.
  intros Hreach.
  destruct (DemoFacts.reachable_invariants Hreach) as (Hcons & _).
  destruct (@DemoFacts.renderChildren_same c (App.tick (Demo.appState t)) t
              Hcons eq_refl) as (_ & M & Cu & L & E1 & E2 & E3).
  cbn [Demo.step].
  split; [exact M|]. split; [exact Cu|]. split; [exact L|].
  split; [exact E1|]. split; [exact E2|]. split; [exact E3|].
  intros value.
  destruct (strict_eq value (App.inputValue (Demo.appState t)));
    [split; reflexivity|].
  destruct (@DemoFacts.renderChildren_same c
              (Demo.setInputValue value (Demo.appState t)) t Hcons eq_refl)
    as (_ & M' & Cu' & _).
  split; assumption.
Qed.

Lemma tick_spares_wrapped_children_witness :
  Demo.reachable Demo.sampleSession
  /\ Demo.memoWorld (Demo.step Demo.Tick Demo.sampleClocks Demo.sampleSession)
     = Demo.memoWorld Demo.sampleSession
  /\ Hooks.renderCount
       (Demo.listWorld (Demo.step Demo.Tick Demo.sampleClocks Demo.sampleSession))
     = Hooks.renderCount (Demo.listWorld Demo.sampleSession) + 1.
Proof.
  split; [exact sampleSession_reachable|].
  destruct (@tick_spares_wrapped_children Demo.sampleSession Demo.sampleClocks
              sampleSession_reachable) as (M & _ & L & _).
  split; [exact M | exact L].
Defined.

(** X19: the render counts the components log follow the state of [App]:
    [ChipListMemo] and [ChipListCusto] have run once at the mount and once
    per chip added since, and the plain [ChipList] at least once more per
    tick of the counter. *)
Theorem render_counts (t : Demo.Tree) :
  Demo.reachable t ->
  Hooks.renderCount (Demo.memoWorld t)
  = 1 + (length (App.chips (Demo.appState t)) - length initialSample)
  /\ Hooks.renderCount (Demo.custoWorld t) = Hooks.renderCount (Demo.memoWorld t)
  /\ Hooks.renderCount (Demo.memoWorld t) + App.counter (Demo.appState t)
     <= Hooks.renderCount (Demo.listWorld t).
Proof.
  intros Hreach.
  destruct (DemoFacts.reachable_invariants Hreach) as (_ & Hcount & _).
  exact Hcount.
Qed.

Lemma render_counts_witness :
  Demo.reachable Demo.sampleSession
  /\ Hooks.renderCount (Demo.memoWorld Demo.sampleSession)
     = 1 + (length (App.chips (Demo.appState Demo.sampleSession))
            - length initialSample)
  /\ Hooks.renderCount (Demo.custoWorld Demo.sampleSession)
     = Hooks.renderCount (Demo.memoWorld Demo.sampleSession)
  /\ Hooks.renderCount (Demo.memoWorld Demo.sampleSession)
     + App.counter (Demo.appState Demo.sampleSession)
     <= Hooks.renderCount (Demo.listWorld Demo.sampleSession).
Proof.
  split; [exact sampleSession_reachable|].
  exact (@render_counts Demo.sampleSession sampleSession_reachable).
Defined.

(** The session in numbers: six chips, the wrapped children ran twice, the
    plain one four times. *)
Example sampleSession_counts :
  map label (App.chips (Demo.appState Demo.sampleSession))
  = map label initialSample ++ [lit "Rocq"]
  /\ Hooks.renderCount (Demo.memoWorld Demo.sampleSession) = 2
  /\ Hooks.renderCount (Demo.custoWorld Demo.sampleSession) = 2
  /\ Hooks.renderCount (Demo.listWorld Demo.sampleSession) = 4
  /\ observe (Demo.custoShown Demo.sampleSession)
     = mkResult [lit "ReactJS"; lit "TypeScript"; lit "Performanc" ++ ELLIPSIS] 3.
Proof. repeat split. Qed.

(** X20: in every state [App] can reach, the labels are pairwise
    different, none is empty or has white space at an end, and the five
    sample chips are still the first five, in their order. *)
Theorem labels_stay_in_order (t : Demo.Tree) :
  Demo.reachable t ->
  NoDup (map label (App.chips (Demo.appState t)))
  /\ Forall (fun chip => tidy (label chip)) (App.chips (Demo.appState t))
  /\ exists added, App.chips (Demo.appState t) = initialSample ++ added.
Proof.
  intros Hreach.
  destruct (DemoFacts.reachable_invariants Hreach) as (_ & _ & Hchips).
  exact Hchips.
Qed.

Lemma labels_stay_in_order_witness :
  Demo.reachable Demo.sampleSession
  /\ NoDup (map label (App.chips (Demo.appState Demo.sampleSession)))
  /\ Forall (fun chip => tidy (label chip))
       (App.chips (Demo.appState Demo.sampleSession))
  /\ exists added,
       App.chips (Demo.appState Demo.sampleSession) = initialSample ++ added.
Proof.
  split; [exact sampleSession_reachable|].
  exact (@labels_stay_in_order Demo.sampleSession sampleSession_reachable).
Defined.

(* ===================================================================== *)
(** ** Truncating twice *)
(* ===================================================================== *)

(** X21: a display string is stable: under a limit that is absent or not
    negative, truncating a display string again under the same limit
    gives it back, so an already shortened label never collects a second
    ellipsis. *)
Theorem displayLabel_stable (maxTextLength : number) (chip : Chip) :
  limit_ok maxTextLength ->
  displayLabel maxTextLength (mkChip (displayLabel maxTextLength chip))
  = displayLabel maxTextLength chip.
Proof.
  intros Hok. pose proof (@displayLabel_law maxTextLength chip Hok) as Hlaw.
  unfold truncation_law in Hlaw. destruct maxTextLength as [m|].
  - destruct ((m =? 0) || (length (label chip) <=? m)) eqn:Hfit.
    + rewrite Hlaw. destruct chip as [l]. simpl label in *.
      exact Hlaw.
    + destruct Hlaw as (Hout & Hlen & _).
      apply orb_false_iff in Hfit. destruct Hfit as [H0 Hgt].
      apply Z.leb_gt in Hgt. simpl in Hok.
      set (out := displayLabel (Some m) chip) in *.
      unfold displayLabel at 1. simpl label. unfold truthy, le.
      rewrite H0. simpl negb.
      destruct (Z.leb_spec (length out) m) as [Hle|_]; [lia|].
      simpl orb. cbv iota.
      rewrite slice_from_zero_positive by exact Hok.
      rewrite Hout at 1.
      rewrite firstn_app, firstn_firstn, Nat.min_id.
      assert (Hn : List.length (firstn (Z.to_nat m) (label chip)) = Z.to_nat m).
      { rewrite length_firstn. unfold length in Hgt. lia. }
      rewrite Hn, Nat.sub_diag, firstn_O, app_nil_r.
      symmetry. exact Hout.
  - destruct chip as [l]. reflexivity.
Qed.

Lemma displayLabel_stable_witness :
  limit_ok (Some 10)
  /\ displayLabel (Some 10)
       (mkChip (displayLabel (Some 10) (mkChip (lit "PerformanceOptimization"))))
     = displayLabel (Some 10) (mkChip (lit "PerformanceOptimization")).
Proof.
  split.
  - simpl. lia.
  - apply (@displayLabel_stable (Some 10) (mkChip (lit "PerformanceOptimization"))).
    simpl. lia.
Defined.
